(** * AssignmentManagement: the assignment aggregation pipeline

    A shallow embedding of [src/components/admin/AssignmentManagement.tsx].
    The component keeps five pieces of React state and talks to a remote
    document store through [get], [push] and [remove].  The embedding keeps
    the component state in a record, the remote store and every observable
    side effect (requests sent, notifications, console output, page reloads)
    in a second record, and runs the three asynchronous handlers in a small
    state-and-exception monad so that [try]/[catch]/[finally] can be written
    the way the source writes it. *)

From Stdlib Require Import List String Ascii ZArith Bool Arith Lia.
From Stdlib Require Import Permutation Sorted.
From Stdlib Require Decimal DecimalString DecimalPos.
Import ListNotations.

Local Open Scope string_scope.
Local Open Scope list_scope.
Local Open Scope Z_scope.

(** ** Data model *)

(** A date-valued property of a stored record.  The source keeps dates as
    strings and only ever looks at them through [x && new Date(x)] or
    [new Date(x || 0).getTime()]: [None] stands for a missing or empty
    (falsy) property, [Some t] for a date string whose time value is [t]
    milliseconds since the epoch (negative before 1970).  The strings the
    component itself writes, [toISOString()] and the value of a date input,
    are of this kind. *)
Definition DateField := option Z.

(** The acting user supplied by [useAuth()]. *)
Record User := mkUser {
  user_id : string;
  user_role : string
}.

(** Children of the [courses] collection, without their key. *)
Record CourseVal := mkCourseVal {
  cv_title : string;
  cv_instructor_id : string
}.

(** [{ id: childSnapshot.key, ...childSnapshot.val() }] for a course. *)
Record Course := mkCourse {
  course_key : string;
  course_val : CourseVal
}.

(** Children of the [assignments] collection: the properties that
    [handleCreateAssignment] writes. *)
Record AssignmentVal := mkAssignmentVal {
  a_title : string;
  a_description : string;
  a_course_id : string;
  a_due_date : DateField;
  a_points : Z;
  a_created_at : DateField;
  a_created_by : string
}.

(** Children of the [submissions] collection; only [assignment_id] is read. *)
Record SubmissionVal := mkSubmissionVal {
  s_assignment_id : string
}.

(** [{ id: childSnapshot.key, ...childSnapshot.val(), course_title }], to
    which the counting loop later adds [submissions_count]; the count is
    [None] as long as that property has not been assigned. *)
Record EnrichedAssignment := mkEnriched {
  id : string;
  val : AssignmentVal;
  course_title : string;
  submissions_count : option nat
}.

(** The creation form ([newAssignment]). *)
Record NewAssignment := mkNewAssignment {
  na_title : string;
  na_description : string;
  na_course_id : string;
  na_due_date : DateField;
  na_points : Z
}.

(** A collection of the remote store: its children in the order in which a
    snapshot enumerates them (by key). *)
Definition Collection (V : Type) := list (string * V).

Record Store := mkStore {
  st_courses : Collection CourseVal;
  st_assignments : Collection AssignmentVal;
  st_submissions : Collection SubmissionVal
}.

(** One round trip to the remote store. *)
Inductive Request :=
| GetCourses (instructor : option string)
| GetAssignments (course : string)
| GetSubmissions (assignment : string)
| PushAssignment (v : AssignmentVal)
| RemoveAssignment (key : string).

Inductive Toast :=
| toast_error (msg : string)
| toast_success (msg : string).

Inductive Exn :=
| NetworkError (r : Request)
| TypeError (msg : string).

(** Everything outside the component.  [fails n] tells whether the round
    trip issued when [n] requests have already been sent is rejected;
    [now] is the reading of the clock; [push_keys n] is the key the store
    generates for a child pushed when [n] requests have been sent. *)
Record World := mkWorld {
  store : Store;
  fails : nat -> bool;
  now : Z;
  push_keys : nat -> string;
  requests : list Request;
  toasts : list Toast;
  console : list Exn;
  reloads : nat
}.

(** The React state of the component. *)
Record State := mkState {
  assignments : list EnrichedAssignment;
  courses : list Course;
  isLoading : bool;
  isAddDialogOpen : bool;
  newAssignment : NewAssignment
}.

Definition emptyForm : NewAssignment := mkNewAssignment "" "" "" None 100.

(** The [useState] initial values. *)
Definition initialState : State := mkState [] [] true false emptyForm.

(** ** The monad of the asynchronous handlers *)

Inductive Outcome (A : Type) :=
| Ok (a : A)
| Throw (e : Exn).
Arguments Ok {A} a.
Arguments Throw {A} e.

Definition Sys : Type := World * State.

Definition M (A : Type) : Type := Sys -> Outcome A * Sys.

Definition ret {A} (a : A) : M A := fun s => (Ok a, s).

Definition bind {A B} (m : M A) (k : A -> M B) : M B :=
  fun s => match m s with
           | (Ok a, s') => k a s'
           | (Throw e, s') => (Throw e, s')
           end.

Definition throw {A} (e : Exn) : M A := fun s => (Throw e, s).

Declare Scope handler_scope.
Delimit Scope handler_scope with handler.
Notation "x <- m ;; k" := (bind m (fun x => k))
  (at level 100, m at next level, right associativity) : handler_scope.
Notation "m ;; k" := (bind m (fun _ => k))
  (at level 100, right associativity) : handler_scope.
Local Open Scope handler_scope.

(** [try { body } catch (error) { handler error } finally { fin }]. *)
Definition try_catch_finally {A} (body : M A) (handler : Exn -> M A)
    (fin : M unit) : M A :=
  fun s =>
    let '(r, s1) := match body s with
                    | (Ok a, s') => (Ok a, s')
                    | (Throw e, s') => handler e s'
                    end in
    match fin s1 with
    | (Ok _, s2) => (r, s2)
    | (Throw e, s2) => (Throw e, s2)
    end.

(** [try { body } catch (error) { handler error }]. *)
Definition try_catch {A} (body : M A) (handler : Exn -> M A) : M A :=
  try_catch_finally body handler (ret tt).

Definition modifyWorld (f : World -> World) : M unit :=
  fun s => (Ok tt, (f (fst s), snd s)).

Definition modifyState (f : State -> State) : M unit :=
  fun s => (Ok tt, (fst s, f (snd s))).

Definition getWorld : M World := fun s => (Ok (fst s), s).
Definition getState : M State := fun s => (Ok (snd s), s).

(** *** State setters *)

Definition setAssignments (l : list EnrichedAssignment) : M unit :=
  modifyState (fun st => mkState l (courses st) (isLoading st)
                           (isAddDialogOpen st) (newAssignment st)).

Definition setCourses (l : list Course) : M unit :=
  modifyState (fun st => mkState (assignments st) l (isLoading st)
                           (isAddDialogOpen st) (newAssignment st)).

Definition setIsLoading (b : bool) : M unit :=
  modifyState (fun st => mkState (assignments st) (courses st) b
                           (isAddDialogOpen st) (newAssignment st)).

Definition setIsAddDialogOpen (b : bool) : M unit :=
  modifyState (fun st => mkState (assignments st) (courses st) (isLoading st)
                           b (newAssignment st)).

Definition setNewAssignment (f : NewAssignment) : M unit :=
  modifyState (fun st => mkState (assignments st) (courses st) (isLoading st)
                           (isAddDialogOpen st) f).

(** *** Effects on the world *)

Definition with_store (w : World) (s : Store) : World :=
  mkWorld s (fails w) (now w) (push_keys w) (requests w) (toasts w)
          (console w) (reloads w).

Definition with_requests (w : World) (l : list Request) : World :=
  mkWorld (store w) (fails w) (now w) (push_keys w) l (toasts w)
          (console w) (reloads w).

Definition toast (t : Toast) : M unit :=
  modifyWorld (fun w => mkWorld (store w) (fails w) (now w) (push_keys w)
                          (requests w) (toasts w ++ [t]) (console w)
                          (reloads w)).

Definition console_error (e : Exn) : M unit :=
  modifyWorld (fun w => mkWorld (store w) (fails w) (now w) (push_keys w)
                          (requests w) (toasts w) (console w ++ [e])
                          (reloads w)).

(** [window.location.reload()]: the request to load the page anew is
    recorded.  The run of the handler ends with it; the page that follows is
    a new mount of the component, with the [useState] initial values
    ([initialState], so [isLoading = true]) and a run of [fetchData] in the
    world that the handler left.  The state that a run returns after this
    request is the state of the page that is being discarded. *)
Definition window_location_reload : M unit :=
  modifyWorld (fun w => mkWorld (store w) (fails w) (now w) (push_keys w)
                          (requests w) (toasts w) (console w)
                          (S (reloads w))).

(** One awaited round trip: the request is recorded, and the promise is
    rejected when the world says so. *)
Definition round_trip (r : Request) : M unit :=
  fun s =>
    let w := fst s in
    let w' := with_requests w (requests w ++ [r]) in
    if fails w (List.length (requests w))
    then (Throw (NetworkError r), (w', snd s))
    else (Ok tt, (w', snd s)).

(** [query(ref, orderByChild(child), equalTo(v))]: the children whose
    property equals [v]; they all carry the same value, so they come in
    key order, which is the order of the collection. *)
Definition equalTo {V} (child : V -> string) (v : string)
    (c : Collection V) : Collection V :=
  filter (fun kv => String.eqb (child (snd kv)) v) c.

(** [await get(...)] on the three collections. *)
Definition get_courses (instructor : option string)
    : M (Collection CourseVal) :=
  round_trip (GetCourses instructor) ;;
  w <- getWorld ;;
  ret (match instructor with
       | Some uid => equalTo cv_instructor_id uid (st_courses (store w))
       | None => st_courses (store w)
       end).

Definition get_assignments (course : string) : M (Collection AssignmentVal) :=
  round_trip (GetAssignments course) ;;
  w <- getWorld ;;
  ret (equalTo a_course_id course (st_assignments (store w))).

Definition get_submissions (assignment : string)
    : M (Collection SubmissionVal) :=
  round_trip (GetSubmissions assignment) ;;
  w <- getWorld ;;
  ret (equalTo s_assignment_id assignment (st_submissions (store w))).

(** [snapshot.exists()] and [snapshot.forEach]. *)
Definition snapshot_exists {V} (snap : Collection V) : bool :=
  match snap with [] => false | _ :: _ => true end.

Definition forEach {V A} (snap : Collection V) (f : string -> V -> A)
    : list A :=
  map (fun kv => f (fst kv) (snd kv)) snap.

(** [await push(ref(database, 'assignments'), v)]: the new child gets a
    generated key and comes last in the collection. *)
Definition push_assignment (v : AssignmentVal) : M unit :=
  w <- getWorld ;;
  let key := push_keys w (List.length (requests w)) in
  round_trip (PushAssignment v) ;;
  modifyWorld (fun w =>
    with_store w (mkStore (st_courses (store w))
                          (st_assignments (store w) ++ [(key, v)])
                          (st_submissions (store w)))).

(** [await remove(ref(database, `assignments/${key}`))]: only the child
    stored under [key] goes; submissions are left alone. *)
Definition remove_assignment (key : string) : M unit :=
  round_trip (RemoveAssignment key) ;;
  modifyWorld (fun w =>
    with_store w (mkStore (st_courses (store w))
                          (filter (fun kv => negb (String.eqb (fst kv) key))
                                  (st_assignments (store w)))
                          (st_submissions (store w)))).

(** *** Loops with an [await] in their body *)

(** [for (const x of l) { ... }] around a local accumulator. *)
Fixpoint for_of {A B} (l : list A) (body : B -> A -> M B) (acc : B) : M B :=
  match l with
  | [] => ret acc
  | x :: l' => acc' <- body acc x ;; for_of l' body acc'
  end.

(** [for (let i = 0; i < l.length; i++) { ... l[i].p = v }]: every turn
    updates the element it visits and no other. *)
Fixpoint for_index {A} (l : list A) (body : A -> M A) : M (list A) :=
  match l with
  | [] => ret []
  | x :: l' => x' <- body x ;; l'' <- for_index l' body ;; ret (x' :: l'')
  end.

(** ** Sorting *)

(** [new Date(d || 0).getTime()]. *)
Definition getTime (d : DateField) : Z :=
  match d with
  | Some t => t
  | None => 0
  end.

Definition created_time (a : EnrichedAssignment) : Z :=
  getTime (a_created_at (val a)).

(** The comparator of the source: a positive result puts [b] first.  The
    difference of two time values keeps its sign in floating point, which is
    all that [sort] looks at. *)
Definition byCreatedDesc (a b : EnrichedAssignment) : Z :=
  created_time b - created_time a.

(** [Array.prototype.sort] is stable; with a comparator that comes from a
    key, as here, the result is the one stable arrangement, which insertion
    from the right computes. *)
Fixpoint insert {A} (cmp : A -> A -> Z) (a : A) (l : list A) : list A :=
  match l with
  | [] => [a]
  | x :: l' => if Z.leb (cmp a x) 0 then a :: l else x :: insert cmp a l'
  end.

Definition sort {A} (cmp : A -> A -> Z) (l : list A) : list A :=
  fold_right (insert cmp) [] l.

(** ** fetchData *)

(** [user?.id], falsy when there is no user or the id is empty. *)
Definition present (user : option User) : option User :=
  match user with
  | Some u => if String.eqb (user_id u) "" then None else Some u
  | None => None
  end.

Definition enrich (course : Course) (key : string) (v : AssignmentVal)
    : EnrichedAssignment :=
  mkEnriched key v (cv_title (course_val course)) None.

Definition set_submissions_count (a : EnrichedAssignment) (n : nat)
    : EnrichedAssignment :=
  mkEnriched (id a) (val a) (course_title a) (Some n).

Definition fetchAssignmentsOf (assignmentsData : list EnrichedAssignment)
    (course : Course) : M (list EnrichedAssignment) :=
  assignmentsSnapshot <- get_assignments (course_key course) ;;
  ret (if snapshot_exists assignmentsSnapshot
       then assignmentsData ++ forEach assignmentsSnapshot (enrich course)
       else assignmentsData).

Definition countSubmissionsOf (assignment : EnrichedAssignment)
    : M EnrichedAssignment :=
  submissionsSnapshot <- get_submissions (id assignment) ;;
  let submissionCount :=
    if snapshot_exists submissionsSnapshot
    then List.length (forEach submissionsSnapshot (fun _ _ => tt))
    else 0%nat in
  ret (set_submissions_count assignment submissionCount).

Definition fetchBody (u : User) : M unit :=
  coursesSnapshot <-
    get_courses (if String.eqb (user_role u) "teacher"
                 then Some (user_id u) else None) ;;
  let coursesData :=
    if snapshot_exists coursesSnapshot
    then forEach coursesSnapshot mkCourse
    else [] in
  setCourses coursesData ;;
  assignmentsData <- for_of coursesData fetchAssignmentsOf [] ;;
  assignmentsData <- for_index assignmentsData countSubmissionsOf ;;
  setAssignments (sort byCreatedDesc assignmentsData).

Definition fetchData (user : option User) : M unit :=
  match present user with
  | None => setIsLoading false
  | Some u =>
      try_catch_finally
        (fetchBody u)
        (fun error =>
           console_error error ;;
           toast (toast_error "Failed to load assignments."))
        (setIsLoading false)
  end.

(** ** The creation form *)

(** What an input of the form reports: [e.target.name] with a value of the
    shape that input produces. *)
Inductive FieldInput :=
| TitleInput (value : string)
| DescriptionInput (value : string)
| DueDateInput (value : DateField).

Definition handleInputChange (e : FieldInput) : M unit :=
  st <- getState ;;
  let f := newAssignment st in
  setNewAssignment
    match e with
    | TitleInput v =>
        mkNewAssignment v (na_description f) (na_course_id f)
                        (na_due_date f) (na_points f)
    | DescriptionInput v =>
        mkNewAssignment (na_title f) v (na_course_id f)
                        (na_due_date f) (na_points f)
    | DueDateInput v =>
        mkNewAssignment (na_title f) (na_description f) (na_course_id f)
                        v (na_points f)
    end.

(** [onValueChange] of the course selector. *)
Definition handleCourseChange (value : string) : M unit :=
  st <- getState ;;
  let f := newAssignment st in
  setNewAssignment
    (mkNewAssignment (na_title f) (na_description f) value
                     (na_due_date f) (na_points f)).

(** *** parseInt *)

Definition isWhiteSpace (c : ascii) : bool :=
  let n := nat_of_ascii c in
  (Nat.leb 9 n && Nat.leb n 13) || Nat.eqb n 32.

Fixpoint trimStart (s : string) : string :=
  match s with
  | String c s' => if isWhiteSpace c then trimStart s' else s
  | EmptyString => s
  end.

Definition digitValue (c : ascii) : option Z :=
  let n := Z.of_nat (nat_of_ascii c) in
  if (48 <=? n) && (n <=? 57) then Some (n - 48)
  else if (97 <=? n) && (n <=? 122) then Some (n - 87)
  else if (65 <=? n) && (n <=? 90) then Some (n - 55)
  else None.

(** The value of the longest prefix of digits of the radix; [acc] is [None]
    until a digit has been read. *)
Fixpoint parseDigits (radix : Z) (s : string) (acc : option Z) : option Z :=
  match s with
  | String c s' =>
      match digitValue c with
      | Some d =>
          if d <? radix
          then parseDigits radix s'
                 (Some (radix * match acc with Some n => n | None => 0 end + d))
          else acc
      | None => acc
      end
  | EmptyString => acc
  end.

(** [parseInt(s)] with no radix argument; [None] is [NaN].  Leading white
    space goes, then a sign, then a [0x] prefix selects radix 16.  The
    characters are ASCII (white space outside ASCII is not treated), and the
    value is the exact integer, which is the value of the code as long as a
    number holds it exactly, that is up to 2^53 in absolute value. *)
Definition parseInt (s : string) : option Z :=
  let s := trimStart s in
  let '(sign, s) :=
    match s with
    | String "-" s' => (-1, s')
    | String "+" s' => (1, s')
    | _ => (1, s)
    end in
  let '(radix, s) :=
    match s with
    | String "0" (String "x" s') => (16, s')
    | String "0" (String "X" s') => (16, s')
    | _ => (10, s)
    end in
  match parseDigits radix s None with
  | Some n => Some (sign * n)
  | None => None
  end.

(** [parseInt(e.target.value) || 0]. *)
Definition handlePointsChange (value : string) : M unit :=
  let value := match parseInt value with Some n => n | None => 0 end in
  st <- getState ;;
  let f := newAssignment st in
  setNewAssignment
    (mkNewAssignment (na_title f) (na_description f) (na_course_id f)
                     (na_due_date f) value).

(** ** handleCreateAssignment *)

(** [!s] for a string: only the empty string is falsy. *)
Definition falsy (s : string) : bool := String.eqb s "".

(** [{ ...newAssignment, created_at: new Date().toISOString(),
       created_by: user.id }]. *)
Definition assignmentData (newAssignment : NewAssignment) (now : Z)
    (created_by : string) : AssignmentVal :=
  mkAssignmentVal (na_title newAssignment)
                  (na_description newAssignment)
                  (na_course_id newAssignment)
                  (na_due_date newAssignment)
                  (na_points newAssignment)
                  (Some now)
                  created_by.

(** [user.id], which throws when there is no user. *)
Definition user_id_of (user : option User) : M string :=
  match user with
  | Some u => ret (user_id u)
  | None => throw (TypeError "Cannot read properties of null")
  end.

Definition handleCreateAssignment (user : option User) : M unit :=
  st <- getState ;;
  let newAssignment := newAssignment st in
  try_catch
    (if falsy (na_title newAssignment)
        || falsy (na_course_id newAssignment)
     then toast (toast_error "Title and course are required")
     else
       w <- getWorld ;;
       created_by <- user_id_of user ;;
       let assignmentData := assignmentData newAssignment (now w) created_by in
       push_assignment assignmentData ;;
       toast (toast_success "Assignment created successfully") ;;
       setIsAddDialogOpen false ;;
       setNewAssignment emptyForm ;;
       window_location_reload)
    (fun error =>
       console_error error ;;
       toast (toast_error "Failed to create assignment")).

(** ** handleDeleteAssignment *)

(** [confirmed] is the answer of the [confirm] dialog. *)
Definition handleDeleteAssignment (confirmed : bool) (assignmentId : string)
    : M unit :=
  st <- getState ;;
  let assignments := assignments st in
  if confirmed
  then
    try_catch
      (remove_assignment assignmentId ;;
       setAssignments
         (filter (fun a => negb (String.eqb (id a) assignmentId)) assignments) ;;
       toast (toast_success "Assignment deleted successfully"))
      (fun error =>
         console_error error ;;
         toast (toast_error "Failed to delete assignment"))
  else ret tt.

(** ** Derived views *)

(** [!(a.due_date && new Date(a.due_date) < new Date())]. *)
Definition isActive (now : Z) (a : EnrichedAssignment) : bool :=
  let isDueDatePassed :=
    match a_due_date (val a) with
    | Some due => due <? now
    | None => false
    end in
  negb isDueDatePassed.

Definition activeAssignments (now : Z) (st : State)
    : list EnrichedAssignment :=
  filter (isActive now) (assignments st).

(** [a.submissions_count > 0]. *)
Definition pendingGrading (st : State) : list EnrichedAssignment :=
  filter (fun a => match submissions_count a with
                   | Some n => Nat.ltb 0 n
                   | None => false
                   end)
         (assignments st).

(** ** Closed forms of the runs *)

(** The world after the requests [rs] have been sent. *)
Definition sent (w : World) (rs : list Request) : World :=
  with_requests w (requests w ++ rs).

(** The next [n] round trips are not rejected. *)
Definition accepts (w : World) (n : nat) : Prop :=
  forall i, (i < n)%nat -> fails w (List.length (requests w) + i) = false.

(** The query that [fetchData] sends for the courses. *)
Definition courseQuery (u : User) : option string :=
  if String.eqb (user_role u) "teacher" then Some (user_id u) else None.

(** The courses a completed course fetch hands to [setCourses]. *)
Definition resolvedScope (u : User) (s : Store) : list Course :=
  forEach (match courseQuery u with
           | Some uid => equalTo cv_instructor_id uid (st_courses s)
           | None => st_courses s
           end) mkCourse.

(** What one turn of the assignment loop appends. *)
Definition gatheredOf (s : Store) (course : Course)
    : list EnrichedAssignment :=
  forEach (equalTo a_course_id (course_key course) (st_assignments s))
          (enrich course).

(** What one turn of the counting loop leaves in place of [a]. *)
Definition countedOf (s : Store) (a : EnrichedAssignment)
    : EnrichedAssignment :=
  set_submissions_count a
    (List.length (equalTo s_assignment_id (id a) (st_submissions s))).

(** The sequence a run without failure hands to [setAssignments]. *)
Definition pipeline (u : User) (s : Store) : list EnrichedAssignment :=
  sort byCreatedDesc
    (map (countedOf s) (flat_map (gatheredOf s) (resolvedScope u s))).

(** The requests of a run without failure, in the order they are sent. *)
Definition pipelineRequests (u : User) (s : Store) : list Request :=
  GetCourses (courseQuery u)
  :: map (fun c => GetAssignments (course_key c)) (resolvedScope u s)
  ++ map (fun a => GetSubmissions (id a))
         (flat_map (gatheredOf s) (resolvedScope u s)).

(** The world rejects none of the requests that the run for [u] sends. *)
Definition accepted (u : User) (w : World) : Prop :=
  accepts w (List.length (pipelineRequests u (store w))).

(** What a loop of round trips can do: it sends requests and nothing else;
    it runs to its end when the world accepts every request, and it throws
    at the first request that the world rejects. *)
Inductive LoopRun {A} (w : World) (st : State) (good : A)
    (all : list Request) : Outcome A * Sys -> Prop :=
| loop_done :
    accepts w (List.length all) ->
    LoopRun w st good all (Ok good, (sent w all, st))
| loop_thrown r rs :
    (List.length rs < List.length all)%nat ->
    fails w (List.length (requests w) + List.length rs) = true ->
    LoopRun w st good all (Throw (NetworkError r), (sent w (rs ++ [r]), st)).

(** The world after a [catch] block has logged [e] and notified [msg]. *)
Definition caught (w : World) (e : Exn) (msg : string) : World :=
  mkWorld (store w) (fails w) (now w) (push_keys w) (requests w)
          (toasts w ++ [toast_error msg]) (console w ++ [e]) (reloads w).

Definition loadedState (u : User) (s : Store) (st : State) : State :=
  mkState (pipeline u s) (resolvedScope u s) false
          (isAddDialogOpen st) (newAssignment st).

(** The three ways a run of [fetchData] for a present user can end: every
    request of the run was accepted; the course query was rejected; a later
    request was rejected. *)
Inductive FetchRun (u : User) (w : World) (st : State)
    : Outcome unit * Sys -> Prop :=
| fetch_loaded :
    accepted u w ->
    FetchRun u w st
      (Ok tt, (sent w (pipelineRequests u (store w)),
               loadedState u (store w) st))
| fetch_failed_at_courses :
    fails w (List.length (requests w)) = true ->
    FetchRun u w st
      (Ok tt,
       (caught (sent w [GetCourses (courseQuery u)])
               (NetworkError (GetCourses (courseQuery u)))
               "Failed to load assignments.",
        mkState (assignments st) (courses st) false
                (isAddDialogOpen st) (newAssignment st)))
| fetch_failed_later r rs :
    fails w (List.length (requests w)) = false ->
    (S (List.length rs) < List.length (pipelineRequests u (store w)))%nat ->
    fails w (List.length (requests w) + S (List.length rs)) = true ->
    FetchRun u w st
      (Ok tt,
       (caught (sent w (GetCourses (courseQuery u) :: rs ++ [r]))
               (NetworkError r) "Failed to load assignments.",
        mkState (assignments st) (resolvedScope u (store w)) false
                (isAddDialogOpen st) (newAssignment st))).

(** The body of the [try] block, before [catch] and [finally]. *)
Inductive BodyRun (u : User) (w : World) (st : State)
    : Outcome unit * Sys -> Prop :=
| body_done :
    accepted u w ->
    BodyRun u w st
      (Ok tt, (sent w (pipelineRequests u (store w)),
               mkState (pipeline u (store w)) (resolvedScope u (store w))
                       (isLoading st) (isAddDialogOpen st) (newAssignment st)))
| body_thrown_at_courses :
    fails w (List.length (requests w)) = true ->
    BodyRun u w st
      (Throw (NetworkError (GetCourses (courseQuery u))),
       (sent w [GetCourses (courseQuery u)], st))
| body_thrown_later r rs :
    fails w (List.length (requests w)) = false ->
    (S (List.length rs) < List.length (pipelineRequests u (store w)))%nat ->
    fails w (List.length (requests w) + S (List.length rs)) = true ->
    BodyRun u w st
      (Throw (NetworkError r),
       (sent w (GetCourses (courseQuery u) :: rs ++ [r]),
        mkState (assignments st) (resolvedScope u (store w))
                (isLoading st) (isAddDialogOpen st) (newAssignment st))).

Definition outcomeOf {A} (r : Outcome A * Sys) : Outcome A := fst r.
Definition worldAfter {A} (r : Outcome A * Sys) : World := fst (snd r).
Definition stateAfter {A} (r : Outcome A * Sys) : State := snd (snd r).

(** The world after one more notification. *)
Definition notified (w : World) (t : Toast) : World :=
  mkWorld (store w) (fails w) (now w) (push_keys w) (requests w)
          (toasts w ++ [t]) (console w) (reloads w).

(** The world after a creation that went through: the child is stored, the
    success is notified, the page is asked to reload. *)
Definition createdWorld (w : World) (v : AssignmentVal) : World :=
  mkWorld (mkStore (st_courses (store w))
                   (st_assignments (store w)
                    ++ [(push_keys w (List.length (requests w)), v)])
                   (st_submissions (store w)))
          (fails w) (now w) (push_keys w)
          (requests w ++ [PushAssignment v])
          (toasts w ++ [toast_success "Assignment created successfully"])
          (console w) (S (reloads w)).

Definition invalidForm (f : NewAssignment) : Prop :=
  na_title f = "" \/ na_course_id f = "".

(** The world after a deletion that went through. *)
Definition deletedWorld (w : World) (key : string) : World :=
  mkWorld (mkStore (st_courses (store w))
                   (filter (fun kv => negb (String.eqb (fst kv) key))
                           (st_assignments (store w)))
                   (st_submissions (store w)))
          (fails w) (now w) (push_keys w)
          (requests w ++ [RemoveAssignment key])
          (toasts w ++ [toast_success "Assignment deleted successfully"])
          (console w) (reloads w).

(** [a] may stand before [b] when the larger key comes first. *)
Definition descending {A} (key : A -> Z) (a b : A) : Prop := key b <= key a.

(** ** What the points input shows *)

(** [value={newAssignment.points}]: the decimal numeral of an integer, with
    a leading [-] for a negative one (integers below 10^21 are not shown in
    exponent form). *)
Definition showPoints (points : Z) : string :=
  DecimalString.NilEmpty.string_of_int (Z.to_int points).

(** The value of a numeral read from the left, starting from [acc]. *)
Fixpoint numeralValue (d : Decimal.uint) (acc : Z) : Z :=
  match d with
  | Decimal.Nil => acc
  | Decimal.D0 l => numeralValue l (10 * acc + 0)
  | Decimal.D1 l => numeralValue l (10 * acc + 1)
  | Decimal.D2 l => numeralValue l (10 * acc + 2)
  | Decimal.D3 l => numeralValue l (10 * acc + 3)
  | Decimal.D4 l => numeralValue l (10 * acc + 4)
  | Decimal.D5 l => numeralValue l (10 * acc + 5)
  | Decimal.D6 l => numeralValue l (10 * acc + 6)
  | Decimal.D7 l => numeralValue l (10 * acc + 7)
  | Decimal.D8 l => numeralValue l (10 * acc + 8)
  | Decimal.D9 l => numeralValue l (10 * acc + 9)
  end.

(** ** The inputs of the dialog *)

(** The [onChange] wiring of the creation dialog: the title, description
    and due-date inputs report to [handleInputChange], the course selector
    to its own setter, the points input to [handlePointsChange]. *)
Inductive FormEdit :=
| EditInput (e : FieldInput)
| EditCourse (value : string)
| EditPoints (value : string).

Definition applyEdit (e : FormEdit) : M unit :=
  match e with
  | EditInput e => handleInputChange e
  | EditCourse value => handleCourseChange value
  | EditPoints value => handlePointsChange value
  end.

Inductive FormField :=
| TitleField | DescriptionField | CourseField | DueDateField | PointsField.

(** The property of [newAssignment] that an edit writes. *)
Definition editedField (e : FormEdit) : FormField :=
  match e with
  | EditInput (TitleInput _) => TitleField
  | EditInput (DescriptionInput _) => DescriptionField
  | EditInput (DueDateInput _) => DueDateField
  | EditCourse _ => CourseField
  | EditPoints _ => PointsField
  end.

(** ** Reading a trace of requests *)

(** The requests that only read the store. *)
Definition isRead (r : Request) : bool :=
  match r with
  | GetCourses _ | GetAssignments _ | GetSubmissions _ => true
  | PushAssignment _ | RemoveAssignment _ => false
  end.

(** The first of the next [n] round trips that the world rejects, counted
    from the round trip sent when [base] requests are behind. *)
Fixpoint rejectedAt (rejects : nat -> bool) (base n : nat) : option nat :=
  match n with
  | O => None
  | S n' =>
      if rejects base then Some O
      else option_map S (rejectedAt rejects (S base) n')
  end.

(** ** A small school *)

Module Scenario.

Definition U1 : User := mkUser "u1" "teacher".
Definition U2 : User := mkUser "u2" "teacher".
Definition admin : User := mkUser "root" "admin".

Definition C1 : CourseVal := mkCourseVal "Algebra" "u1".
Definition C2 : CourseVal := mkCourseVal "Biology" "u2".

Definition T1 : Z := 1700000000000.
Definition T2 : Z := 1700000500000.

Definition A1 : AssignmentVal :=
  mkAssignmentVal "Groups" "" "c1" None 100 (Some T1) "u1".
Definition A2 : AssignmentVal :=
  mkAssignmentVal "Cells" "" "c2" (Some T2) 50 (Some T2) "u2".
Definition A3 : AssignmentVal :=
  mkAssignmentVal "Rings" "" "c1" (Some T1) 20 None "u1".

Definition school : Store :=
  mkStore [("c1", C1); ("c2", C2)]
          [("a1", A1); ("a2", A2); ("a3", A3)]
          [("s1", mkSubmissionVal "a1"); ("s2", mkSubmissionVal "a1");
           ("s3", mkSubmissionVal "a2")].

(** A world in which every round trip succeeds. *)
Definition calm : World :=
  mkWorld school (fun _ => false) T2 (fun _ => "a4") [] [] [] 0.

(** A world that rejects the round trip sent when [n] are behind. *)
Definition failing (n : nat) : World :=
  mkWorld school (Nat.eqb n) T2 (fun _ => "a4") [] [] [] 0.

(** The creation form, filled in. *)
Definition filled : State :=
  mkState [] [] false true (mkNewAssignment "Fields" "" "c1" None 100).

Definition E1 : EnrichedAssignment := mkEnriched "a1" A1 "Algebra" (Some 2%nat).
Definition E2 : EnrichedAssignment := mkEnriched "a2" A2 "Biology" (Some 1%nat).
Definition E3 : EnrichedAssignment := mkEnriched "a3" A3 "Algebra" (Some 0%nat).

End Scenario.

(** * Properties *)

(** ** The runs of [fetchData] *)

Lemma sent_nil w : sent w [] = w.
Proof. destruct w; unfold sent, with_requests; simpl. now rewrite app_nil_r. Qed.

Lemma sent_sent w a b : sent (sent w a) b = sent w (a ++ b).
Proof. unfold sent, with_requests; simpl. now rewrite app_assoc. Qed.

Lemma round_trip_eq r w st :
  round_trip r (w, st) =
  (if fails w (List.length (requests w)) then Throw (NetworkError r) else Ok tt,
   (sent w [r], st)).
Proof. unfold round_trip; simpl. now destruct (fails w _). Qed.

Lemma snapshot_forEach {V A} (snap : Collection V) (f : string -> V -> A)
    (acc : list A) :
  (if snapshot_exists snap then acc ++ forEach snap f else acc)
  = acc ++ forEach snap f.
Proof. destruct snap; simpl; [now rewrite app_nil_r | reflexivity]. Qed.

Lemma snapshot_count {V A} (snap : Collection V) (f : string -> V -> A) :
  (if snapshot_exists snap then List.length (forEach snap f) else 0%nat)
  = List.length snap.
Proof. destruct snap; [reflexivity | apply length_map]. Qed.

(** One turn of the assignment loop: a single request, after which the turn
    either appends the course's assignments or throws. *)
Lemma fetchAssignmentsOf_eq acc course w st :
  fetchAssignmentsOf acc course (w, st) =
  (if fails w (List.length (requests w))
   then Throw (NetworkError (GetAssignments (course_key course)))
   else Ok (acc ++ gatheredOf (store w) course),
   (sent w [GetAssignments (course_key course)], st)).
Proof.
  unfold fetchAssignmentsOf, get_assignments, bind.
  rewrite round_trip_eq.
  destruct (fails w _); [reflexivity|].
  unfold getWorld, ret; simpl.
  now rewrite snapshot_forEach.
Qed.

Lemma countSubmissionsOf_eq a w st :
  countSubmissionsOf a (w, st) =
  (if fails w (List.length (requests w))
   then Throw (NetworkError (GetSubmissions (id a)))
   else Ok (countedOf (store w) a),
   (sent w [GetSubmissions (id a)], st)).
Proof.
  unfold countSubmissionsOf, get_submissions, bind.
  rewrite round_trip_eq.
  destruct (fails w _); [reflexivity|].
  unfold getWorld, ret, countedOf; simpl.
  now rewrite snapshot_count.
Qed.

Lemma requests_sent w rs :
  List.length (requests (sent w rs))
  = (List.length (requests w) + List.length rs)%nat.
Proof. unfold sent, with_requests; simpl. apply length_app. Qed.

Lemma accepted_step w r0 (n : nat) :
  fails w (List.length (requests w)) = false ->
  accepts (sent w [r0]) n ->
  accepts w (S n).
Proof.
  intros F H [|i] Hi.
  - now rewrite Nat.add_0_r.
  - specialize (H i). rewrite requests_sent in H. simpl in H.
    replace (List.length (requests w) + S i)%nat
      with (List.length (requests w) + 1 + i)%nat by lia.
    apply H. lia.
Qed.

Lemma rejected_step w r0 (n : nat) :
  fails w (List.length (requests (sent w [r0])) + n) = true ->
  fails w (List.length (requests w) + S n) = true.
Proof.
  rewrite requests_sent. simpl.
  now replace (List.length (requests w) + S n)%nat
    with (List.length (requests w) + 1 + n)%nat by lia.
Qed.

Lemma for_of_run l : forall acc w st,
  LoopRun w st (acc ++ flat_map (gatheredOf (store w)) l)
          (map (fun c => GetAssignments (course_key c)) l)
          (for_of l fetchAssignmentsOf acc (w, st)).
Proof.
  induction l as [|c l IH]; intros acc w st; simpl.
  - unfold ret. rewrite app_nil_r. rewrite <- (sent_nil w) at 2.
    constructor. simpl. intros i Hi. lia.
  - unfold bind. rewrite fetchAssignmentsOf_eq.
    destruct (fails w _) eqn:F.
    + apply (loop_thrown _ _ _ _ _ []); simpl; [lia | now rewrite Nat.add_0_r].
    + specialize (IH (acc ++ gatheredOf (store w) c)
                     (sent w [GetAssignments (course_key c)]) st).
      simpl in IH. rewrite <- app_assoc in IH.
      inversion IH as [H | r rs Hl H].
      * rewrite sent_sent. simpl.
        apply loop_done. simpl.
        now apply accepted_step with (r0 := GetAssignments (course_key c)).
      * rewrite sent_sent.
        apply (loop_thrown _ _ _ _ r (GetAssignments (course_key c) :: rs));
          [simpl; lia|].
        now apply rejected_step with (r0 := GetAssignments (course_key c)).
Qed.

Lemma for_index_run l : forall w st,
  LoopRun w st (map (countedOf (store w)) l)
          (map (fun a => GetSubmissions (id a)) l)
          (for_index l countSubmissionsOf (w, st)).
Proof.
  induction l as [|a l IH]; intros w st; simpl.
  - unfold ret. rewrite <- (sent_nil w) at 2.
    constructor. simpl. intros i Hi. lia.
  - unfold bind. rewrite countSubmissionsOf_eq.
    destruct (fails w _) eqn:F.
    + apply (loop_thrown _ _ _ _ _ []); simpl; [lia | now rewrite Nat.add_0_r].
    + specialize (IH (sent w [GetSubmissions (id a)]) st). simpl in IH.
      inversion IH as [H | r rs Hl H].
      * unfold ret. rewrite sent_sent. simpl.
        apply loop_done. simpl.
        now apply accepted_step with (r0 := GetSubmissions (id a)).
      * rewrite sent_sent.
        apply (loop_thrown _ _ _ _ r (GetSubmissions (id a) :: rs));
          [simpl; lia|].
        now apply rejected_step with (r0 := GetSubmissions (id a)).
Qed.

Lemma catch_block_eq e msg w st :
  (console_error e ;; toast (toast_error msg)) (w, st)
  = (Ok tt, (caught w e msg, st)).
Proof. reflexivity. Qed.

Arguments sent : simpl never.
Arguments caught : simpl never.

Lemma snapshot_courses (snap : Collection CourseVal) :
  (if snapshot_exists snap then forEach snap mkCourse else [])
  = forEach snap mkCourse.
Proof. now destruct snap. Qed.

Lemma pipelineRequests_length u s :
  List.length (pipelineRequests u s)
  = S (List.length (resolvedScope u s)
       + List.length (flat_map (gatheredOf s) (resolvedScope u s))).
Proof.
  unfold pipelineRequests. simpl. now rewrite length_app, !length_map.
Qed.

Lemma fetchBody_run u w st : BodyRun u w st (fetchBody u (w, st)).
Proof.
  unfold fetchBody, get_courses, bind.
  rewrite round_trip_eq. fold (courseQuery u).
  destruct (fails w _) eqn:F.
  - now apply body_thrown_at_courses.
  - unfold getWorld, ret. cbn [fst snd].
    rewrite snapshot_courses.
    change (store (sent w [GetCourses (courseQuery u)])) with (store w).
    fold (resolvedScope u (store w)).
    unfold setCourses, modifyState. cbn [fst snd].
    set (scope := resolvedScope u (store w)).
    set (st1 := mkState (assignments st) scope
                        (isLoading st) (isAddDialogOpen st) (newAssignment st)).
    set (w1 := sent w [GetCourses (courseQuery u)]).
    set (rs1 := map (fun c => GetAssignments (course_key c)) scope).
    pose proof (for_of_run scope [] w1 st1) as L1.
    simpl in L1. fold rs1 in L1.
    assert (B1 : List.length (requests w1)
                 = (List.length (requests w) + 1)%nat)
      by (unfold w1; now rewrite requests_sent).
    assert (N1 : List.length rs1 = List.length scope)
      by (unfold rs1; apply length_map).
    inversion L1 as [H1 E1 | r rs Hl H1 E1].
    + pose proof (for_index_run (flat_map (gatheredOf (store w)) scope)
                                (sent w1 rs1) st1) as L2.
      simpl in L2.
      set (rs2 := map (fun a => GetSubmissions (id a))
                      (flat_map (gatheredOf (store w)) scope)) in *.
      assert (N2 : List.length rs2
                   = List.length (flat_map (gatheredOf (store w)) scope))
        by (unfold rs2; apply length_map).
      inversion L2 as [H2 E2 | r rs Hl H2 E2].
      * simpl. unfold w1. rewrite !sent_sent. simpl.
        apply body_done. unfold accepted. rewrite pipelineRequests_length.
        fold scope. intros i Hi.
        destruct (Nat.eq_dec i 0) as [->|Z0]; [now rewrite Nat.add_0_r|].
        destruct (Nat.lt_ge_cases i (S (List.length scope))) as [Lt|Ge].
        -- specialize (H1 (i - 1)%nat). rewrite B1 in H1.
           replace (List.length (requests w) + i)%nat
             with (List.length (requests w) + 1 + (i - 1))%nat by lia.
           apply H1. lia.
        -- specialize (H2 (i - 1 - List.length scope)%nat).
           rewrite requests_sent, B1, N1 in H2.
           replace (List.length (requests w) + i)%nat
             with (List.length (requests w) + 1 + List.length scope
                   + (i - 1 - List.length scope))%nat by lia.
           apply H2. lia.
      * unfold w1. rewrite !sent_sent. simpl. rewrite app_assoc.
        apply body_thrown_later; [exact F | |].
        -- rewrite pipelineRequests_length, length_app. fold scope. lia.
        -- rewrite requests_sent, B1, N1 in H2. rewrite length_app, N1.
           replace (List.length (requests w)
                    + S (List.length scope + List.length rs))%nat
             with (List.length (requests w) + 1 + List.length scope
                   + List.length rs)%nat by lia.
           exact H2.
    + unfold w1. rewrite sent_sent. simpl.
      apply body_thrown_later; [exact F | |].
      * rewrite pipelineRequests_length. fold scope. lia.
      * rewrite B1 in H1.
        replace (List.length (requests w) + S (List.length rs))%nat
          with (List.length (requests w) + 1 + List.length rs)%nat by lia.
        exact H1.
Qed.

Lemma fetchData_run user u w st :
  present user = Some u ->
  FetchRun u w st (fetchData user (w, st)).
Proof.
  intros P. unfold fetchData. rewrite P.
  unfold try_catch_finally.
  destruct (fetchBody_run u w st) as [H | F | r rs F Hl H].
  - now apply fetch_loaded.
  - cbv beta iota. rewrite catch_block_eq. simpl.
    now apply fetch_failed_at_courses.
  - cbv beta iota. rewrite catch_block_eq. simpl.
    now apply fetch_failed_later.
Qed.

(** Once the course query is accepted the course list is the resolved
    scope, whatever happens to the later requests. *)
Lemma fetchData_courses user u w st :
  present user = Some u ->
  fails w (List.length (requests w)) = false ->
  courses (snd (snd (fetchData user (w, st)))) = resolvedScope u (store w).
Proof.
  intros P F0.
  destruct (fetchData_run user u w st P) as [H | F | r rs F Hl H].
  - reflexivity.
  - rewrite F0 in F. discriminate.
  - reflexivity.
Qed.

(** A run whose requests are all accepted loads what the store holds. *)
Lemma fetchData_accepted user u w st :
  present user = Some u ->
  accepted u w ->
  fetchData user (w, st)
  = (Ok tt, (sent w (pipelineRequests u (store w)),
             loadedState u (store w) st)).
Proof.
  intros P R.
  destruct (fetchData_run user u w st P) as [H | F | r rs F Hl H].
  - reflexivity.
  - rewrite <- (Nat.add_0_r (List.length (requests w))) in F.
    rewrite (R 0%nat) in F; [discriminate|].
    rewrite pipelineRequests_length. lia.
  - rewrite (R _ Hl) in H. discriminate.
Qed.

(** ** The sort *)

Section SortByKey.

Context {A : Type}.
Variable key : A -> Z.

(** A comparator that puts the larger key first. *)
Let cmp (a b : A) : Z := key b - key a.

Lemma insert_perm a l : Permutation (insert cmp a l) (a :: l).
Proof.
  induction l as [|x l IH]; simpl; [reflexivity|].
  destruct (Z.leb (cmp a x) 0); [reflexivity|].
  rewrite IH. apply perm_swap.
Qed.

Lemma sort_perm l : Permutation (sort cmp l) l.
Proof.
  induction l as [|a l IH]; simpl; [reflexivity|].
  fold (sort cmp l). rewrite insert_perm. now constructor.
Qed.

Lemma insert_sorted a l :
  StronglySorted (descending key) l -> StronglySorted (descending key) (insert cmp a l).
Proof.
  induction 1 as [|x l Hs IH Hx]; simpl.
  - repeat constructor.
  - destruct (Z.leb (cmp a x) 0) eqn:E.
    + apply Z.leb_le in E. unfold cmp in E.
      constructor; [now constructor|].
      constructor; [unfold descending; lia|].
      eapply Forall_impl; [|exact Hx].
      unfold descending; intros; lia.
    + apply Z.leb_gt in E. unfold cmp in E.
      constructor; [exact IH|].
      eapply Permutation_Forall; [symmetry; apply insert_perm|].
      constructor; [unfold descending; lia | exact Hx].
Qed.

Lemma sort_sorted l : StronglySorted (descending key) (sort cmp l).
Proof.
  induction l as [|a l IH]; simpl; [constructor|].
  now apply insert_sorted.
Qed.



End SortByKey.

Lemma byCreatedDesc_sorted l :
  StronglySorted (descending created_time) (sort byCreatedDesc l).
Proof. apply (sort_sorted created_time). Qed.

Lemma byCreatedDesc_perm l : Permutation (sort byCreatedDesc l) l.
Proof. apply (sort_perm created_time). Qed.


(** ** Who is in the result of a run *)

Lemma in_equalTo {V} (child : V -> string) v (c : Collection V) kv :
  In kv (equalTo child v c) <-> In kv c /\ child (snd kv) = v.
Proof.
  unfold equalTo. rewrite filter_In. now rewrite String.eqb_eq.
Qed.

Lemma in_forEach_mkCourse (snap : Collection CourseVal) c :
  In c (forEach snap mkCourse) <-> In (course_key c, course_val c) snap.
Proof.
  unfold forEach. rewrite in_map_iff. split.
  - intros [[k v] [E H]]. subst c. exact H.
  - intros H. exists (course_key c, course_val c). now destruct c.
Qed.

Lemma in_resolvedScope u s c :
  In c (resolvedScope u s) <->
  In (course_key c, course_val c) (st_courses s)
  /\ (user_role u = "teacher" -> cv_instructor_id (course_val c) = user_id u).
Proof.
  unfold resolvedScope, courseQuery. rewrite in_forEach_mkCourse.
  destruct (String.eqb_spec (user_role u) "teacher") as [E|E].
  - rewrite in_equalTo. simpl. tauto.
  - tauto.
Qed.

Lemma in_gatheredOf s course a :
  In a (gatheredOf s course) <->
  In (id a, val a) (st_assignments s)
  /\ a_course_id (val a) = course_key course
  /\ course_title a = cv_title (course_val course)
  /\ submissions_count a = None.
Proof.
  unfold gatheredOf, forEach. rewrite in_map_iff. split.
  - intros [[k v] [E H]]. apply in_equalTo in H. subst a. simpl in *. tauto.
  - intros (H & C & T & N). exists (id a, val a). split.
    + destruct a; simpl in *. unfold enrich. now subst.
    + apply in_equalTo. now split.
Qed.

Lemma in_countedOf s l a :
  In a (map (countedOf s) l) <->
  In (mkEnriched (id a) (val a) (course_title a) None) l
  /\ submissions_count a
     = Some (List.length (equalTo s_assignment_id (id a) (st_submissions s)))
  \/ exists n,
     In (mkEnriched (id a) (val a) (course_title a) (Some n)) l
     /\ submissions_count a
        = Some (List.length (equalTo s_assignment_id (id a) (st_submissions s))).
Proof.
  rewrite in_map_iff. split.
  - intros [b [E H]]. subst a. destruct b as [k v t [n|]]; simpl.
    + right. exists n. now split.
    + left. now split.
  - intros [[H C] | [n [H C]]].
    + eexists. split; [|exact H]. destruct a; simpl in *. now subst.
    + eexists. split; [|exact H]. destruct a; simpl in *. now subst.
Qed.

(** The members of the loaded sequence: the stored assignments of the
    courses in scope, each with the title of its course and the number of
    its submissions. *)
Lemma in_pipeline u s a :
  In a (pipeline u s) <->
  exists c,
    In c (resolvedScope u s)
    /\ In (id a, val a) (st_assignments s)
    /\ a_course_id (val a) = course_key c
    /\ course_title a = cv_title (course_val c)
    /\ submissions_count a
       = Some (List.length (equalTo s_assignment_id (id a) (st_submissions s))).
Proof.
  unfold pipeline.
  split.
  - intros H. apply (Permutation_in _ (byCreatedDesc_perm _)) in H.
    apply in_countedOf in H. destruct H as [[H C] | [n [H C]]].
    + apply in_flat_map in H. destruct H as [c [Hc H]].
      apply in_gatheredOf in H. simpl in H. exists c. tauto.
    + apply in_flat_map in H. destruct H as [c [Hc H]].
      apply in_gatheredOf in H. simpl in H. destruct H as (_ & _ & _ & D).
      discriminate.
  - intros (c & Hc & H & C & T & N).
    apply (Permutation_in _ (Permutation_sym (byCreatedDesc_perm _))).
    apply in_countedOf. left. split; [|exact N].
    apply in_flat_map. exists c. split; [exact Hc|].
    apply in_gatheredOf. simpl. tauto.
Qed.

(** ** The creation, in closed form *)

(** Runs a handler up to its next test on the form or on the world. *)
Ltac run_handler :=
  unfold handleCreateAssignment, handleDeleteAssignment,
         try_catch, try_catch_finally, push_assignment, remove_assignment,
         user_id_of, round_trip, bind, ret, getState, getWorld;
  cbn [fst snd].

Lemma falsy_form f :
  falsy (na_title f) || falsy (na_course_id f) = true <-> invalidForm f.
Proof.
  unfold falsy, invalidForm.
  now rewrite orb_true_iff, !String.eqb_eq.
Qed.

Lemma create_invalid user w st :
  invalidForm (newAssignment st) ->
  handleCreateAssignment user (w, st)
  = (Ok tt, (notified w (toast_error "Title and course are required"), st)).
Proof.
  intros H. apply falsy_form in H.
  run_handler. rewrite H. reflexivity.
Qed.

Lemma create_no_user w st :
  ~ invalidForm (newAssignment st) ->
  handleCreateAssignment None (w, st)
  = (Ok tt, (caught w (TypeError "Cannot read properties of null")
                    "Failed to create assignment", st)).
Proof.
  intros H. rewrite <- falsy_form in H. apply not_true_is_false in H.
  run_handler. rewrite H. reflexivity.
Qed.

Lemma create_rejected u w st :
  ~ invalidForm (newAssignment st) ->
  fails w (List.length (requests w)) = true ->
  let v := assignmentData (newAssignment st) (now w) (user_id u) in
  handleCreateAssignment (Some u) (w, st)
  = (Ok tt, (caught (sent w [PushAssignment v])
                    (NetworkError (PushAssignment v))
                    "Failed to create assignment", st)).
Proof.
  intros H F v. rewrite <- falsy_form in H. apply not_true_is_false in H.
  run_handler. rewrite H. run_handler. rewrite F. reflexivity.
Qed.

Lemma create_accepted u w st :
  ~ invalidForm (newAssignment st) ->
  fails w (List.length (requests w)) = false ->
  handleCreateAssignment (Some u) (w, st)
  = (Ok tt,
     (createdWorld w (assignmentData (newAssignment st) (now w) (user_id u)),
      mkState (assignments st) (courses st) (isLoading st) false emptyForm)).
Proof.
  intros H F. rewrite <- falsy_form in H. apply not_true_is_false in H.
  run_handler. rewrite H. run_handler. rewrite F. reflexivity.
Qed.

Lemma invalidForm_dec f : {invalidForm f} + {~ invalidForm f}.
Proof.
  unfold invalidForm.
  destruct (string_dec (na_title f) ""), (string_dec (na_course_id f) "");
    tauto.
Defined.

(** ** The deletion, in closed form *)

Lemma delete_declined key w st :
  handleDeleteAssignment false key (w, st) = (Ok tt, (w, st)).
Proof. reflexivity. Qed.

Lemma delete_accepted key w st :
  fails w (List.length (requests w)) = false ->
  handleDeleteAssignment true key (w, st)
  = (Ok tt,
     (deletedWorld w key,
      mkState (filter (fun a => negb (String.eqb (id a) key)) (assignments st))
              (courses st) (isLoading st) (isAddDialogOpen st)
              (newAssignment st))).
Proof.
  intros F.
  run_handler. rewrite F. reflexivity.
Qed.

Lemma delete_rejected key w st :
  fails w (List.length (requests w)) = true ->
  handleDeleteAssignment true key (w, st)
  = (Ok tt, (caught (sent w [RemoveAssignment key])
                    (NetworkError (RemoveAssignment key))
                    "Failed to delete assignment", st)).
Proof.
  intros F.
  run_handler. rewrite F. reflexivity.
Qed.

(** No handler lets an exception escape. *)
Lemma fetchData_caught user w st : outcomeOf (fetchData user (w, st)) = Ok tt.
Proof.
  destruct (present user) as [u|] eqn:P.
  - now destruct (fetchData_run user u w st P).
  - unfold fetchData. now rewrite P.
Qed.

Lemma handleCreateAssignment_caught user w st :
  outcomeOf (handleCreateAssignment user (w, st)) = Ok tt.
Proof.
  destruct (invalidForm_dec (newAssignment st)) as [I|I].
  - now rewrite create_invalid.
  - destruct user as [u|]; [|now rewrite create_no_user].
    destruct (fails w (List.length (requests w))) eqn:F.
    + now rewrite create_rejected.
    + now rewrite create_accepted.
Qed.

Lemma handleDeleteAssignment_caught confirmed key w st :
  outcomeOf (handleDeleteAssignment confirmed key (w, st)) = Ok tt.
Proof.
  destruct confirmed; [|reflexivity].
  destruct (fails w (List.length (requests w))) eqn:F.
  - now rewrite delete_rejected.
  - now rewrite delete_accepted.
Qed.

(** ** The small school at work *)

Lemma calm_accepted u : accepted u Scenario.calm.
Proof. intros i _. reflexivity. Defined.

Example fetch_as_U1 :
  stateAfter (fetchData (Some Scenario.U1) (Scenario.calm, initialState))
  = mkState [Scenario.E1; Scenario.E3]
            [mkCourse "c1" Scenario.C1] false false emptyForm.
Proof. reflexivity. Qed.

Example fetch_as_admin :
  assignments
    (stateAfter (fetchData (Some Scenario.admin) (Scenario.calm, initialState)))
  = [Scenario.E2; Scenario.E1; Scenario.E3].
Proof. reflexivity. Qed.

Example parseInt_examples :
  parseInt "250" = Some 250 /\ parseInt "  -7px" = Some (-7)
  /\ parseInt "0x1F" = Some 31 /\ parseInt "" = None
  /\ parseInt "1e3" = Some 1 /\ parseInt "12.5" = Some 12.
Proof. repeat split. Qed.

(** * The claims *)

(** C1, as amended.  For an acting user with a present id, once the course
    query is answered the course scope is exactly the stored courses whose
    [instructor_id] is the user's id when the role is ["teacher"], and the
    whole course collection for every other role.  Every assignment shown
    after a run whose requests are all accepted belongs to a course of that
    scope, so for a teacher to a course that the teacher instructs.  A run
    in which a later request is rejected shows nothing of its own and leaves
    the sequence that was shown before in place. *)
Theorem course_scope_resolution user u w st :
  present user = Some u ->
  fails w (List.length (requests w)) = false ->
  let st' := stateAfter (fetchData user (w, st)) in
  (forall c, In c (courses st') <->
             In (course_key c, course_val c) (st_courses (store w))
             /\ (user_role u = "teacher" ->
                 cv_instructor_id (course_val c) = user_id u))
  /\ (user_role u = "teacher" ->
      courses st'
      = forEach (equalTo cv_instructor_id (user_id u) (st_courses (store w)))
                mkCourse)
  /\ (user_role u <> "teacher" ->
      courses st' = forEach (st_courses (store w)) mkCourse)
  /\ (accepted u w ->
      forall a, In a (assignments st') ->
        exists c, In c (courses st') /\ a_course_id (val a) = course_key c)
  /\ (accepted u w ->
      user_role u = "teacher" ->
      forall a, In a (assignments st') ->
        exists k cv, In (k, cv) (st_courses (store w))
                     /\ cv_instructor_id cv = user_id u
                     /\ a_course_id (val a) = k)
  /\ (forall i,
        (i < List.length (pipelineRequests u (store w)))%nat ->
        fails w (List.length (requests w) + i) = true ->
        assignments st' = assignments st).
Proof.
  intros P F st'. subst st'. unfold stateAfter.
  rewrite (fetchData_courses user u w st P F).
  split; [intro c; apply in_resolvedScope|].
  split; [|split; [|split; [|split]]].
  - intros T. unfold resolvedScope, courseQuery.
    now rewrite (proj2 (String.eqb_eq _ _) T).
  - intros T. unfold resolvedScope, courseQuery.
    now rewrite (proj2 (String.eqb_neq _ _) T).
  - intros R. rewrite (fetchData_accepted user u w st P R).
    cbn [fst snd loadedState assignments].
    intros a H. apply in_pipeline in H. destruct H as (c & Hc & _ & C & _).
    exists c. now split.
  - intros R T. rewrite (fetchData_accepted user u w st P R).
    cbn [fst snd loadedState assignments].
    intros a H. apply in_pipeline in H. destruct H as (c & Hc & _ & C & _).
    apply in_resolvedScope in Hc. destruct Hc as [Hc I].
    exists (course_key c), (course_val c). auto.
  - intros i Hi Fi.
    destruct (fetchData_run user u w st P) as [H | F' | r rs F' Hl H].
    + rewrite (H i Hi) in Fi. discriminate.
    + reflexivity.
    + reflexivity.
Qed.

Lemma course_scope_resolution_witness :
  present (Some Scenario.U1) = Some Scenario.U1
  /\ fails Scenario.calm (List.length (requests Scenario.calm)) = false
  /\ accepted Scenario.U1 Scenario.calm
  /\ courses (stateAfter (fetchData (Some Scenario.U1)
                                    (Scenario.calm, initialState)))
     = forEach (equalTo cv_instructor_id "u1" (st_courses Scenario.school))
               mkCourse
  /\ (forall a,
        In a (assignments (stateAfter (fetchData (Some Scenario.U1)
                                                 (Scenario.calm, initialState)))) ->
        exists k cv, In (k, cv) (st_courses (store Scenario.calm))
                     /\ cv_instructor_id cv = "u1"
                     /\ a_course_id (val a) = k)
  /\ fails (Scenario.failing 1) (0 + 1) = true
  /\ assignments (stateAfter (fetchData (Some Scenario.U1)
                                        (Scenario.failing 1, Scenario.filled)))
     = assignments Scenario.filled.
Proof.
  split; [reflexivity|]. split; [reflexivity|].
  split; [exact (calm_accepted Scenario.U1)|].
  split; [|split; [|split; [reflexivity|]]].
  - exact (proj1 (proj2 (course_scope_resolution
                           (Some Scenario.U1) Scenario.U1 Scenario.calm
                           initialState eq_refl eq_refl))
                 eq_refl).
  - exact (proj1 (proj2 (proj2 (proj2 (proj2 (course_scope_resolution
                           (Some Scenario.U1) Scenario.U1 Scenario.calm
                           initialState eq_refl eq_refl)))))
                 (calm_accepted Scenario.U1) eq_refl).
  - assert (Hi : (1 < List.length (pipelineRequests Scenario.U1
                                     (store (Scenario.failing 1))))%nat)
      by (vm_compute; lia).
    exact (proj2 (proj2 (proj2 (proj2 (proj2 (course_scope_resolution
                           (Some Scenario.U1) Scenario.U1 (Scenario.failing 1)
                           Scenario.filled eq_refl eq_refl)))))
                 1%nat Hi eq_refl).
Defined.

(** C1, as the claim words it, fails after a change of user: the sequence
    loaded for an unrestricted user stays on display when the run for the
    teacher who comes next has a request rejected after its course query,
    and it holds an assignment of a course that the teacher does not
    instruct. *)
Lemma teacher_shown_foreign_assignment :
  ~ (forall user u w st,
       present user = Some u ->
       fails w (List.length (requests w)) = false ->
       user_role u = "teacher" ->
       forall a,
         In a (assignments (stateAfter (fetchData user (w, st)))) ->
         exists k cv, In (k, cv) (st_courses (store w))
                      /\ cv_instructor_id cv = user_id u
                      /\ a_course_id (val a) = k).
Proof.
  intros H.
  pose (loaded := fetchData (Some Scenario.admin)
                            (Scenario.failing 7, initialState)).
  assert (Hin : In Scenario.E2
                   (assignments
                      (stateAfter (fetchData (Some Scenario.U1)
                                             (worldAfter loaded,
                                              stateAfter loaded)))))
    by (left; reflexivity).
  destruct (H (Some Scenario.U1) Scenario.U1 (worldAfter loaded)
              (stateAfter loaded) eq_refl eq_refl eq_refl Scenario.E2 Hin)
    as (k & cv & Hc & I & K).
  simpl in K. subst k.
  destruct Hc as [Hc | [Hc | []]].
  - discriminate Hc.
  - injection Hc as <-. discriminate I.
Qed.

(** C2.  A run that completes sends one assignment query per course in
    scope, asking for the children whose [course_id] is that course's id;
    what it shows is, up to the final ordering, the flat sequence of the
    answers, each assignment carrying the title of its course.  With two
    courses [k1] (of teacher [uid1]) and [k2] (of teacher [uid2]) and three
    assignments [a1] and [a3] in [k1] and [a2] in [k2], the run for teacher
    [uid1] shows [a1] and [a3] with the title of [k1], and not [a2]. *)
Theorem assignment_enrichment :
  (forall user u w st,
     present user = Some u ->
     accepted u w ->
     let run := fetchData user (w, st) in
     let scope := courses (stateAfter run) in
     requests (worldAfter run)
     = requests w
       ++ GetCourses (courseQuery u)
          :: map (fun c => GetAssignments (course_key c)) scope
          ++ map (fun a => GetSubmissions (id a))
                 (flat_map (gatheredOf (store w)) scope)
     /\ Permutation
          (assignments (stateAfter run))
          (map (countedOf (store w))
               (flat_map
                  (fun c => forEach (equalTo a_course_id (course_key c)
                                             (st_assignments (store w)))
                                    (enrich c))
                  scope))
     /\ forall a,
          In a (assignments (stateAfter run)) <->
          exists c,
            In c scope
            /\ In (id a, val a) (st_assignments (store w))
            /\ a_course_id (val a) = course_key c
            /\ course_title a = cv_title (course_val c)
            /\ submissions_count a
               = Some (List.length (equalTo s_assignment_id (id a)
                                            (st_submissions (store w)))))
  /\ (forall uid1 uid2 k1 k2 t1 t2 a1 a2 a3 v1 v2 v3 subs w st,
        uid1 <> "" -> uid1 <> uid2 -> k1 <> k2 ->
        a_course_id v1 = k1 -> a_course_id v2 = k2 -> a_course_id v3 = k1 ->
        store w = mkStore [(k1, mkCourseVal t1 uid1); (k2, mkCourseVal t2 uid2)]
                          [(a1, v1); (a2, v2); (a3, v3)] subs ->
        accepted (mkUser uid1 "teacher") w ->
        let shown :=
          assignments
            (stateAfter (fetchData (Some (mkUser uid1 "teacher")) (w, st))) in
        Permutation shown
          [mkEnriched a1 v1 t1
             (Some (List.length (equalTo s_assignment_id a1 subs)));
           mkEnriched a3 v3 t1
             (Some (List.length (equalTo s_assignment_id a3 subs)))]
        /\ forall a, In a shown -> val a <> v2).
Proof.
  split.
  - intros user u w st P R run scope. subst run scope.
    rewrite (fetchData_accepted user u w st P R).
    unfold stateAfter, worldAfter, loadedState;
      cbn [fst snd courses assignments].
    split; [reflexivity|].
    split; [apply byCreatedDesc_perm|].
    intro a. apply in_pipeline.
  - intros uid1 uid2 k1 k2 t1 t2 a1 a2 a3 v1 v2 v3 subs w st
           N0 N12 K12 V1 V2 V3 S R shown. subst shown.
    assert (P : present (Some (mkUser uid1 "teacher"))
                = Some (mkUser uid1 "teacher")).
    { simpl. now rewrite (proj2 (String.eqb_neq _ _) N0). }
    rewrite (fetchData_accepted _ _ w st P R).
    unfold stateAfter, loadedState; cbn [fst snd assignments].
    assert (G : flat_map (gatheredOf (store w))
                         (resolvedScope (mkUser uid1 "teacher") (store w))
                = [mkEnriched a1 v1 t1 None; mkEnriched a3 v3 t1 None]).
    { rewrite S. unfold resolvedScope, courseQuery, gatheredOf, equalTo.
      simpl. rewrite String.eqb_refl.
      rewrite (proj2 (String.eqb_neq uid2 uid1)) by congruence.
      simpl. rewrite V1, V2, V3, String.eqb_refl.
      rewrite (proj2 (String.eqb_neq k2 k1)) by congruence.
      reflexivity. }
    split.
    + unfold pipeline. rewrite byCreatedDesc_perm, G, S. reflexivity.
    + intros a H E.
      apply (Permutation_in _ (byCreatedDesc_perm _)) in H.
      rewrite G in H. simpl in H.
      destruct H as [H | [H | []]]; subst a; simpl in E; congruence.
Qed.

Lemma assignment_enrichment_witness :
  "u1" <> "" /\ "u1" <> "u2" /\ "c1" <> "c2"
  /\ accepted Scenario.U1 Scenario.calm
  /\ Permutation
       (assignments
          (stateAfter (fetchData (Some Scenario.U1)
                                 (Scenario.calm, initialState))))
       [Scenario.E1; Scenario.E3]
  /\ requests (worldAfter (fetchData (Some Scenario.U1)
                                     (Scenario.calm, initialState)))
     = [GetCourses (Some "u1"); GetAssignments "c1";
        GetSubmissions "a1"; GetSubmissions "a3"].
Proof.
  assert (N0 : "u1" <> "") by discriminate.
  assert (N1 : "u1" <> "u2") by discriminate.
  assert (N2 : "c1" <> "c2") by discriminate.
  repeat (split; [assumption || exact (calm_accepted Scenario.U1)|]).
  split.
  - exact (proj1 (proj2 assignment_enrichment
                        "u1" "u2" "c1" "c2" "Algebra" "Biology" "a1" "a2" "a3"
                        Scenario.A1 Scenario.A2 Scenario.A3
                        (st_submissions Scenario.school)
                        Scenario.calm initialState
                        N0 N1 N2 eq_refl eq_refl eq_refl eq_refl
                        (calm_accepted Scenario.U1))).
  - exact (proj1 (proj1 assignment_enrichment
                        (Some Scenario.U1) Scenario.U1 Scenario.calm
                        initialState eq_refl (calm_accepted Scenario.U1))).
Defined.





(** C4.  The creation fails validation exactly when the title or the
    course id of the form is empty; it then notifies the failure, sends no
    request and leaves store and component state as they were.  When the
    form is valid, a user is signed in and the store accepts the push, the
    store gains at its end one child made of the form stamped with
    [created_at = now] and [created_by =] the user's id; the page is asked
    to reload, the shown sequence is not patched, and the fetch that the
    reloaded page runs from its initial state shows the new assignment under
    its course whenever that course is in the user's scope. *)
Theorem creation_operation user w st :
  let f := newAssignment st in
  let run := handleCreateAssignment user (w, st) in
  (toasts (worldAfter run)
   = toasts w ++ [toast_error "Title and course are required"]
   <-> na_title f = "" \/ na_course_id f = "")
  /\ (na_title f = "" \/ na_course_id f = "" ->
      outcomeOf run = Ok tt
      /\ store (worldAfter run) = store w
      /\ requests (worldAfter run) = requests w
      /\ reloads (worldAfter run) = reloads w
      /\ stateAfter run = st)
  /\ (forall u,
        user = Some u ->
        na_title f <> "" ->
        na_course_id f <> "" ->
        fails w (List.length (requests w)) = false ->
        let key := push_keys w (List.length (requests w)) in
        let v := mkAssignmentVal (na_title f) (na_description f)
                                 (na_course_id f) (na_due_date f) (na_points f)
                                 (Some (now w)) (user_id u) in
        outcomeOf run = Ok tt
        /\ store (worldAfter run)
           = mkStore (st_courses (store w))
                     (st_assignments (store w) ++ [(key, v)])
                     (st_submissions (store w))
        /\ requests (worldAfter run) = requests w ++ [PushAssignment v]
        /\ toasts (worldAfter run)
           = toasts w ++ [toast_success "Assignment created successfully"]
        /\ reloads (worldAfter run) = S (reloads w)
        /\ assignments (stateAfter run) = assignments st
        /\ courses (stateAfter run) = courses st
        /\ newAssignment (stateAfter run) = emptyForm
        /\ (present user = Some u ->
            accepted u (worldAfter run) ->
            forall c,
              In c (resolvedScope u (store w)) ->
              course_key c = na_course_id f ->
              exists a,
                In a (assignments
                        (stateAfter (fetchData user
                                       (worldAfter run, initialState))))
                /\ id a = key /\ val a = v
                /\ course_title a = cv_title (course_val c))).
Proof.
  intros f run. subst f run.
  split; [|split].
  - split.
    + intros T.
      destruct (invalidForm_dec (newAssignment st)) as [I|I]; [exact I|].
      exfalso. revert T.
      destruct user as [u|].
      * destruct (fails w (List.length (requests w))) eqn:F.
        -- rewrite (create_rejected u w st I F).
           unfold worldAfter, caught; cbn [fst snd toasts].
           intros T. apply app_inv_head in T. discriminate.
        -- rewrite (create_accepted u w st I F).
           unfold worldAfter, createdWorld; cbn [fst snd toasts].
           intros T. apply app_inv_head in T. discriminate.
      * rewrite (create_no_user w st I).
        unfold worldAfter, caught; cbn [fst snd toasts].
        intros T. apply app_inv_head in T. discriminate.
    + intros I. now rewrite (create_invalid user w st I).
  - intros I. rewrite (create_invalid user w st I). now repeat split.
  - intros u U Ht Hc F key v. subst user.
    assert (I : ~ invalidForm (newAssignment st)) by (unfold invalidForm; tauto).
    rewrite (create_accepted u w st I F).
    change (assignmentData (newAssignment st) (now w) (user_id u)) with v.
    unfold outcomeOf, worldAfter, stateAfter; cbn [fst snd].
    repeat (split; [reflexivity|]).
    intros P R' c Hin Hk.
    rewrite (fetchData_accepted (Some u) u _ initialState P R').
    cbn [fst snd loadedState assignments].
    eexists (mkEnriched key v (cv_title (course_val c)) _).
    split; [|now repeat split].
    apply in_pipeline. exists c. cbn [id val course_title submissions_count].
    split; [exact Hin|].
    split; [unfold createdWorld; cbn; apply in_or_app; right; now left|].
    split; [now rewrite Hk|].
    split; reflexivity.
Qed.

Lemma creation_operation_witness :
  ((na_title emptyForm = "" \/ na_course_id emptyForm = "")
   /\ stateAfter (handleCreateAssignment (Some Scenario.U1)
                                         (Scenario.calm, initialState))
      = initialState)
  /\ ("Fields" <> "" /\ "c1" <> ""
      /\ store (worldAfter (handleCreateAssignment (Some Scenario.U1)
                              (Scenario.calm, Scenario.filled)))
         = mkStore (st_courses Scenario.school)
                   (st_assignments Scenario.school
                    ++ [("a4", mkAssignmentVal "Fields" "" "c1" None 100
                                               (Some Scenario.T2) "u1")])
                   (st_submissions Scenario.school)).
Proof.
  assert (I : na_title (newAssignment initialState) = ""
              \/ na_course_id (newAssignment initialState) = "")
    by (left; reflexivity).
  assert (Ht : "Fields" <> "") by discriminate.
  assert (Hc : "c1" <> "") by discriminate.
  split; [split; [exact I|] | split; [exact Ht | split; [exact Hc|]]].
  - exact (proj2 (proj2 (proj2 (proj2
             (proj1 (proj2 (creation_operation (Some Scenario.U1) Scenario.calm
                                               initialState)) I))))).
  - exact (proj1 (proj2
             (proj2 (proj2 (creation_operation (Some Scenario.U1) Scenario.calm
                                               Scenario.filled))
                    Scenario.U1 eq_refl Ht Hc eq_refl))).
Defined.

(** C5, as amended.  No failure of a round trip escapes a handler: it is
    logged and notified as an error.  A rejected request of the pipeline
    leaves the store and the shown assignment sequence as they were and ends
    the loading state, and nothing gathered by the failed run is shown as an
    assignment; the course list stays as it was when the course query itself
    is rejected, and is already replaced by the newly resolved scope when a
    later request is rejected.  A rejected push or removal leaves the store
    and the whole component state as they were. *)
Theorem failure_handling :
  (forall user confirmed key w st,
     outcomeOf (fetchData user (w, st)) = Ok tt
     /\ outcomeOf (handleCreateAssignment user (w, st)) = Ok tt
     /\ outcomeOf (handleDeleteAssignment confirmed key (w, st)) = Ok tt)
  /\ (forall user u w st i,
        present user = Some u ->
        (i < List.length (pipelineRequests u (store w)))%nat ->
        fails w (List.length (requests w) + i) = true ->
        let run := fetchData user (w, st) in
        toasts (worldAfter run)
        = toasts w ++ [toast_error "Failed to load assignments."]
        /\ (exists r, console (worldAfter run) = console w ++ [NetworkError r])
        /\ store (worldAfter run) = store w
        /\ assignments (stateAfter run) = assignments st
        /\ isLoading (stateAfter run) = false
        /\ (fails w (List.length (requests w)) = true ->
            courses (stateAfter run) = courses st)
        /\ (fails w (List.length (requests w)) = false ->
            courses (stateAfter run) = resolvedScope u (store w)))
  /\ (forall u w st,
        na_title (newAssignment st) <> "" ->
        na_course_id (newAssignment st) <> "" ->
        fails w (List.length (requests w)) = true ->
        let run := handleCreateAssignment (Some u) (w, st) in
        toasts (worldAfter run)
        = toasts w ++ [toast_error "Failed to create assignment"]
        /\ (exists r, console (worldAfter run) = console w ++ [NetworkError r])
        /\ store (worldAfter run) = store w
        /\ reloads (worldAfter run) = reloads w
        /\ stateAfter run = st)
  /\ (forall key w st,
        fails w (List.length (requests w)) = true ->
        let run := handleDeleteAssignment true key (w, st) in
        toasts (worldAfter run)
        = toasts w ++ [toast_error "Failed to delete assignment"]
        /\ (exists r, console (worldAfter run) = console w ++ [NetworkError r])
        /\ store (worldAfter run) = store w
        /\ stateAfter run = st).
Proof.
  split; [|split; [|split]].
  - intros. split; [apply fetchData_caught|].
    split; [apply handleCreateAssignment_caught
           | apply handleDeleteAssignment_caught].
  - intros user u w st i P Hi Fi run. subst run.
    destruct (fetchData_run user u w st P) as [H | F | r rs F Hl H].
    + rewrite (H i Hi) in Fi. discriminate.
    + unfold worldAfter, stateAfter; cbn.
      do 5 (split; [reflexivity || (eexists; reflexivity)|]).
      split; [reflexivity|]. intros F'. rewrite F in F'. discriminate.
    + unfold worldAfter, stateAfter; cbn.
      do 5 (split; [reflexivity || (eexists; reflexivity)|]).
      split; [|reflexivity]. intros F'. rewrite F in F'. discriminate.
  - intros u w st Ht Hc F run. subst run.
    assert (I : ~ invalidForm (newAssignment st)) by (unfold invalidForm; tauto).
    rewrite (create_rejected u w st I F).
    unfold worldAfter, stateAfter; cbn.
    repeat (split; [reflexivity || (eexists; reflexivity)|]). reflexivity.
  - intros key w st F run. subst run.
    rewrite (delete_rejected key w st F).
    unfold worldAfter, stateAfter; cbn.
    repeat (split; [reflexivity || (eexists; reflexivity)|]). reflexivity.
Qed.

Lemma failure_handling_witness :
  (present (Some Scenario.U1) = Some Scenario.U1
   /\ fails (Scenario.failing 2) (0 + 2) = true
   /\ assignments (stateAfter (fetchData (Some Scenario.U1)
                                         (Scenario.failing 2, initialState)))
      = [])
  /\ (fails (Scenario.failing 0) 0 = true
      /\ stateAfter (handleCreateAssignment (Some Scenario.U1)
                                            (Scenario.failing 0, Scenario.filled))
         = Scenario.filled)
  /\ stateAfter (handleDeleteAssignment true "a1"
                                        (Scenario.failing 0, Scenario.filled))
     = Scenario.filled.
Proof.
  assert (Hi : (2 < List.length (pipelineRequests Scenario.U1
                                   (store (Scenario.failing 2))))%nat)
    by (vm_compute; lia).
  assert (Ht : "Fields" <> "") by discriminate.
  assert (Hc : "c1" <> "") by discriminate.
  split; [split; [reflexivity | split; [reflexivity|]]
         | split; [split; [reflexivity|]|]].
  - exact (proj1 (proj2 (proj2 (proj2
             (proj1 (proj2 failure_handling)
                    (Some Scenario.U1) Scenario.U1 (Scenario.failing 2)
                    initialState 2%nat eq_refl Hi eq_refl))))).
  - exact (proj2 (proj2 (proj2 (proj2
             (proj1 (proj2 (proj2 failure_handling))
                    Scenario.U1 (Scenario.failing 0) Scenario.filled
                    Ht Hc eq_refl))))).
  - exact (proj2 (proj2 (proj2
             (proj2 (proj2 (proj2 failure_handling))
                    "a1" (Scenario.failing 0) Scenario.filled eq_refl)))).
Defined.

(** C5, as the claim words it, fails when a request after the course query
    is rejected: the course list of the failed run is on display. *)
Lemma failed_run_shows_its_courses :
  ~ (forall user u w st i,
       present user = Some u ->
       (i < List.length (pipelineRequests u (store w)))%nat ->
       fails w (List.length (requests w) + i) = true ->
       courses (stateAfter (fetchData user (w, st))) = courses st
       /\ assignments (stateAfter (fetchData user (w, st))) = assignments st).
Proof.
  intros H.
  assert (Hi : (1 < List.length (pipelineRequests Scenario.U1
                                   (store (Scenario.failing 1))))%nat)
    by (vm_compute; lia).
  destruct (H (Some Scenario.U1) Scenario.U1 (Scenario.failing 1)
              initialState 1%nat eq_refl Hi eq_refl) as [C _].
  vm_compute in C. discriminate C.
Qed.

(** C6.  A confirmed deletion that the store accepts sends one request, the
    removal of the child stored under the given id, and no fetch; the store
    loses that child and keeps every other child as it was; the shown
    sequence loses the assignments with that id and keeps all others,
    unmodified and in their order; success is notified.  Nothing else
    happens: no reload of the page is asked for, nothing is logged, and the
    course list, the loading flag, the dialog and the form stay as they
    were.  Without confirmation nothing happens at all. *)
Theorem delete_operation assignmentId w st :
  fails w (List.length (requests w)) = false ->
  let run := handleDeleteAssignment true assignmentId (w, st) in
  outcomeOf run = Ok tt
  /\ requests (worldAfter run) = requests w ++ [RemoveAssignment assignmentId]
  /\ (forall k v, In (k, v) (st_assignments (store (worldAfter run))) <->
                  In (k, v) (st_assignments (store w)) /\ k <> assignmentId)
  /\ st_courses (store (worldAfter run)) = st_courses (store w)
  /\ st_submissions (store (worldAfter run)) = st_submissions (store w)
  /\ (forall a, In a (assignments (stateAfter run)) <->
                In a (assignments st) /\ id a <> assignmentId)
  /\ (forall l1 a l2,
        assignments st = l1 ++ a :: l2 ->
        id a = assignmentId ->
        (forall b, In b (l1 ++ l2) -> id b <> assignmentId) ->
        assignments (stateAfter run) = l1 ++ l2)
  /\ courses (stateAfter run) = courses st
  /\ toasts (worldAfter run)
     = toasts w ++ [toast_success "Assignment deleted successfully"]
  /\ handleDeleteAssignment false assignmentId (w, st) = (Ok tt, (w, st))
  /\ reloads (worldAfter run) = reloads w
  /\ console (worldAfter run) = console w
  /\ isLoading (stateAfter run) = isLoading st
  /\ isAddDialogOpen (stateAfter run) = isAddDialogOpen st
  /\ newAssignment (stateAfter run) = newAssignment st.
Proof.
  intros F run. subst run. rewrite (delete_accepted assignmentId w st F).
  unfold outcomeOf, worldAfter, stateAfter, deletedWorld; cbn.
  split; [reflexivity|]. split; [reflexivity|].
  split.
  { intros k v. rewrite filter_In. simpl.
    rewrite negb_true_iff, String.eqb_neq. tauto. }
  split; [reflexivity|]. split; [reflexivity|].
  split.
  { intros a. rewrite filter_In, negb_true_iff, String.eqb_neq. tauto. }
  split.
  { intros l1 a l2 E Ha Hb. rewrite E.
    rewrite filter_app. simpl.
    rewrite (proj2 (String.eqb_eq _ _) Ha). simpl.
    rewrite <- filter_app.
    apply forallb_filter_id. apply forallb_forall.
    intros b Hin. apply negb_true_iff, String.eqb_neq. now apply Hb. }
  repeat split.
Qed.

Lemma delete_operation_witness :
  fails Scenario.calm (List.length (requests Scenario.calm)) = false
  /\ assignments
       (stateAfter
          (handleDeleteAssignment true "a1"
             (Scenario.calm,
              mkState [Scenario.E2; Scenario.E1; Scenario.E3] [] false false
                      emptyForm)))
     = [Scenario.E2] ++ [Scenario.E3].
Proof.
  split; [reflexivity|].
  refine (proj1 (proj2 (proj2 (proj2 (proj2 (proj2 (proj2
            (delete_operation "a1" Scenario.calm
               (mkState [Scenario.E2; Scenario.E1; Scenario.E3] [] false false
                        emptyForm) eq_refl)))))))
            [Scenario.E2] Scenario.E1 [Scenario.E3] eq_refl eq_refl _).
  intros b [<- | [<- | []]]; discriminate.
Defined.

(** C10.  A confirmed deletion of an id that no shown assignment carries
    leaves the component state exactly as it was, yet the removal is sent to
    the store all the same, as the only request and with no look-up before
    it, and success is notified. *)
Theorem delete_unknown_id assignmentId w st :
  (forall a, In a (assignments st) -> id a <> assignmentId) ->
  fails w (List.length (requests w)) = false ->
  let run := handleDeleteAssignment true assignmentId (w, st) in
  outcomeOf run = Ok tt
  /\ stateAfter run = st
  /\ requests (worldAfter run) = requests w ++ [RemoveAssignment assignmentId]
  /\ toasts (worldAfter run)
     = toasts w ++ [toast_success "Assignment deleted successfully"]
  /\ console (worldAfter run) = console w.
Proof.
  intros H F run. subst run. rewrite (delete_accepted assignmentId w st F).
  unfold outcomeOf, worldAfter, stateAfter, deletedWorld; cbn.
  split; [reflexivity|].
  split; [|now repeat split].
  rewrite forallb_filter_id; [now destruct st|].
  apply forallb_forall. intros a Hin.
  apply negb_true_iff, String.eqb_neq. now apply H.
Qed.

Lemma delete_unknown_id_witness :
  fails Scenario.calm (List.length (requests Scenario.calm)) = false
  /\ stateAfter (handleDeleteAssignment true "a9"
                   (Scenario.calm,
                    mkState [Scenario.E1; Scenario.E3] [] false false emptyForm))
     = mkState [Scenario.E1; Scenario.E3] [] false false emptyForm.
Proof.
  split; [reflexivity|].
  refine (proj1 (proj2 (delete_unknown_id "a9" Scenario.calm
                          (mkState [Scenario.E1; Scenario.E3] [] false false
                                   emptyForm) _ eq_refl))).
  intros a [<- | [<- | []]]; discriminate.
Defined.

(** C7.  The active view holds exactly the shown assignments that have no
    due date or whose due date is not before now: one due yesterday (24
    hours before now) is left out, one without a due date is kept. *)
Theorem active_view now st :
  (forall a, In a (activeAssignments now st) <->
             In a (assignments st)
             /\ (a_due_date (val a) = None
                 \/ exists due, a_due_date (val a) = Some due /\ due >= now))
  /\ (forall a, In a (assignments st) ->
                a_due_date (val a) = Some (now - 86400000) ->
                ~ In a (activeAssignments now st))
  /\ (forall a, In a (assignments st) ->
                a_due_date (val a) = None ->
                In a (activeAssignments now st)).
Proof.
  assert (A : forall a, isActive now a = true <->
                        a_due_date (val a) = None
                        \/ exists due, a_due_date (val a) = Some due
                                       /\ due >= now).
  { intros a. unfold isActive. destruct (a_due_date (val a)) as [d|]; simpl.
    - rewrite negb_true_iff, Z.ltb_ge. split.
      + intros H. right. exists d. split; [reflexivity | lia].
      + intros [H | [d' [E H]]]; [discriminate|]. injection E as <-. lia.
    - split; auto. }
  unfold activeAssignments.
  split; [|split].
  - intros a. now rewrite filter_In, A.
  - intros a Hin E. rewrite filter_In, A, E.
    intros [_ [H | [d [D H]]]]; [discriminate|]. injection D as <-. lia.
  - intros a Hin E. rewrite filter_In, A. auto.
Qed.

Lemma active_view_witness :
  In Scenario.E1 [Scenario.E1; Scenario.E3]
  /\ a_due_date (val Scenario.E1) = None
  /\ In Scenario.E1
        (activeAssignments Scenario.T2
           (mkState [Scenario.E1; Scenario.E3] [] false false emptyForm)).
Proof.
  assert (Hin : In Scenario.E1 [Scenario.E1; Scenario.E3]) by (left; reflexivity).
  split; [exact Hin|]. split; [reflexivity|].
  exact (proj2 (proj2 (active_view Scenario.T2
                         (mkState [Scenario.E1; Scenario.E3] [] false false
                                  emptyForm)))
               Scenario.E1 Hin eq_refl).
Defined.

(** C8.  The points of a created assignment are whatever the form holds,
    and the form accepts any integer: clearing the points input leaves 0
    and typing 5000 leaves 5000, and either is stored as it is. *)
Theorem points_are_not_bounded :
  let fill (points : string) : M unit :=
    handleInputChange (TitleInput "Fields") ;;
    handleCourseChange "c1" ;;
    handlePointsChange points ;;
    handleCreateAssignment (Some Scenario.U1) in
  let stored (points : string) :=
    st_assignments
      (store (worldAfter (fill points (Scenario.calm, initialState)))) in
  stored ""
  = st_assignments Scenario.school
    ++ [("a4", mkAssignmentVal "Fields" "" "c1" None 0
                               (Some Scenario.T2) "u1")]
  /\ stored "5000"
     = st_assignments Scenario.school
       ++ [("a4", mkAssignmentVal "Fields" "" "c1" None 5000
                                  (Some Scenario.T2) "u1")]
  /\ forall u w st,
       na_title (newAssignment st) <> "" ->
       na_course_id (newAssignment st) <> "" ->
       fails w (List.length (requests w)) = false ->
       exists key v,
         st_assignments
           (store (worldAfter (handleCreateAssignment (Some u) (w, st))))
         = st_assignments (store w) ++ [(key, v)]
         /\ a_points v = na_points (newAssignment st).
Proof.
  split; [reflexivity|]. split; [reflexivity|].
  intros u w st Ht Hc F.
  assert (I : ~ invalidForm (newAssignment st)) by (unfold invalidForm; tauto).
  rewrite (create_accepted u w st I F).
  eexists _, _. split; reflexivity.
Qed.

Lemma points_are_not_bounded_witness :
  na_points
    (newAssignment
       (stateAfter (handlePointsChange "-3" (Scenario.calm, initialState))))
  = -3
  /\ exists key v,
       st_assignments
         (store (worldAfter
                   (handleCreateAssignment (Some Scenario.U1)
                      (Scenario.calm,
                       mkState [] [] false true
                               (mkNewAssignment "Fields" "" "c1" None (-3))))))
       = st_assignments Scenario.school ++ [(key, v)]
       /\ a_points v = -3.
Proof.
  split; [reflexivity|].
  assert (Ht : "Fields" <> "") by discriminate.
  assert (Hc : "c1" <> "") by discriminate.
  exact (proj2 (proj2 points_are_not_bounded)
               Scenario.U1 Scenario.calm
               (mkState [] [] false true
                        (mkNewAssignment "Fields" "" "c1" None (-3)))
               Ht Hc eq_refl).
Defined.

(** C9, as amended.  When the user id is absent the run sends no request,
    notifies and logs nothing, throws nothing and ends the loading state;
    it writes neither the course list nor the assignment sequence, which
    are therefore empty when the component has just been mounted and
    otherwise stay as an earlier run left them. *)
Theorem absent_user_short_circuit user w st :
  present user = None ->
  fetchData user (w, st)
  = (Ok tt, (w, mkState (assignments st) (courses st) false
                        (isAddDialogOpen st) (newAssignment st)))
  /\ assignments (stateAfter (fetchData user (w, initialState))) = []
  /\ courses (stateAfter (fetchData user (w, initialState))) = []
  /\ (user = None \/ exists u, user = Some u /\ user_id u = "").
Proof.
  intros P. unfold fetchData. rewrite P.
  split; [reflexivity|]. split; [reflexivity|]. split; [reflexivity|].
  destruct user as [u|]; [right | now left].
  exists u. split; [reflexivity|].
  simpl in P. destruct (String.eqb_spec (user_id u) ""); [assumption|discriminate].
Qed.

Lemma absent_user_short_circuit_witness :
  present (Some (mkUser "" "teacher")) = None
  /\ fetchData (Some (mkUser "" "teacher")) (Scenario.calm, initialState)
     = (Ok tt, (Scenario.calm, mkState [] [] false false emptyForm)).
Proof.
  split; [reflexivity|].
  exact (proj1 (absent_user_short_circuit (Some (mkUser "" "teacher"))
                  Scenario.calm initialState eq_refl)).
Defined.

(** C9, as the claim words it, fails once something has been loaded: with
    the user gone, what was shown before stays on display. *)
Lemma absent_user_keeps_loaded_state :
  ~ (forall user w st,
       present user = None ->
       assignments (stateAfter (fetchData user (w, st))) = []
       /\ courses (stateAfter (fetchData user (w, st))) = []).
Proof.
  intros H.
  destruct (H None Scenario.calm
              (mkState [Scenario.E1; Scenario.E3] [mkCourse "c1" Scenario.C1]
                       false false emptyForm)
              eq_refl) as [A _].
  discriminate A.
Qed.

(** * Further properties of the component *)

(** ** The requests of a run *)

Lemma rejectedAt_none rejects : forall n base,
  rejectedAt rejects base n = None ->
  forall i, (i < n)%nat -> rejects (base + i)%nat = false.
Proof.
  induction n as [|n IH]; intros base H i Hi; [lia|].
  simpl in H. destruct (rejects base) eqn:F; [discriminate|].
  destruct (rejectedAt rejects (S base) n) eqn:E; [discriminate|].
  destruct i as [|i]; [now rewrite Nat.add_0_r|].
  replace (base + S i)%nat with (S base + i)%nat by lia.
  apply (IH (S base) E). lia.
Qed.

Lemma rejectedAt_some rejects : forall n base i,
  rejectedAt rejects base n = Some i ->
  (i < n)%nat
  /\ rejects (base + i)%nat = true
  /\ forall j, (j < i)%nat -> rejects (base + j)%nat = false.
Proof.
  induction n as [|n IH]; intros base i H; [discriminate|].
  simpl in H. destruct (rejects base) eqn:F.
  - injection H as <-. rewrite Nat.add_0_r. repeat split; [lia | exact F | lia].
  - destruct (rejectedAt rejects (S base) n) as [k|] eqn:E; [|discriminate].
    injection H as <-. destruct (IH (S base) k E) as (Hk & Fk & Hj).
    repeat split; [lia | |].
    + now replace (base + S k)%nat with (S base + k)%nat by lia.
    + intros [|j] Lt; [now rewrite Nat.add_0_r|].
      replace (base + S j)%nat with (S base + j)%nat by lia.
      apply Hj. lia.
Qed.

Lemma for_of_accepted l acc w st :
  accepts w (List.length l) ->
  for_of l fetchAssignmentsOf acc (w, st)
  = (Ok (acc ++ flat_map (gatheredOf (store w)) l),
     (sent w (map (fun c => GetAssignments (course_key c)) l), st)).
Proof.
  intros A.
  pose proof (for_of_run l acc w st) as L.
  inversion L as [H E | r rs Hl H E]; [reflexivity|].
  rewrite length_map in Hl. rewrite (A _ Hl) in H. discriminate.
Qed.

Lemma for_of_rejected l : forall acc w st i,
  (i < List.length l)%nat ->
  (forall j, (j < i)%nat -> fails w (List.length (requests w) + j) = false) ->
  fails w (List.length (requests w) + i) = true ->
  for_of l fetchAssignmentsOf acc (w, st)
  = (Throw (NetworkError
              (nth i (map (fun c => GetAssignments (course_key c)) l)
                   (GetCourses None))),
     (sent w (firstn (S i) (map (fun c => GetAssignments (course_key c)) l)),
      st)).
Proof.
  induction l as [|c l IH]; intros acc w st i Hi Hj Fi; [simpl in Hi; lia|].
  cbn [for_of]. unfold bind. rewrite fetchAssignmentsOf_eq.
  destruct i as [|i].
  - rewrite Nat.add_0_r in Fi. rewrite Fi. reflexivity.
  - rewrite <- (Nat.add_0_r (List.length (requests w))).
    rewrite (Hj 0%nat) by lia.
    rewrite (IH _ (sent w [GetAssignments (course_key c)]) st i).
    + rewrite sent_sent. reflexivity.
    + simpl in Hi. lia.
    + intros j Lt. rewrite requests_sent. simpl.
      replace (List.length (requests w) + 1 + j)%nat
        with (List.length (requests w) + S j)%nat by lia.
      apply Hj. lia.
    + rewrite requests_sent. simpl.
      now replace (List.length (requests w) + 1 + i)%nat
        with (List.length (requests w) + S i)%nat by lia.
Qed.

Lemma for_index_accepted l w st :
  accepts w (List.length l) ->
  for_index l countSubmissionsOf (w, st)
  = (Ok (map (countedOf (store w)) l),
     (sent w (map (fun a => GetSubmissions (id a)) l), st)).
Proof.
  intros A.
  pose proof (for_index_run l w st) as L.
  inversion L as [H E | r rs Hl H E]; [reflexivity|].
  rewrite length_map in Hl. rewrite (A _ Hl) in H. discriminate.
Qed.

Lemma for_index_rejected l : forall w st i,
  (i < List.length l)%nat ->
  (forall j, (j < i)%nat -> fails w (List.length (requests w) + j) = false) ->
  fails w (List.length (requests w) + i) = true ->
  for_index l countSubmissionsOf (w, st)
  = (Throw (NetworkError
              (nth i (map (fun a => GetSubmissions (id a)) l)
                   (GetCourses None))),
     (sent w (firstn (S i) (map (fun a => GetSubmissions (id a)) l)), st)).
Proof.
  induction l as [|a l IH]; intros w st i Hi Hj Fi; [simpl in Hi; lia|].
  cbn [for_index]. unfold bind. rewrite countSubmissionsOf_eq.
  destruct i as [|i].
  - rewrite Nat.add_0_r in Fi. rewrite Fi. reflexivity.
  - rewrite <- (Nat.add_0_r (List.length (requests w))).
    rewrite (Hj 0%nat) by lia.
    rewrite (IH (sent w [GetSubmissions (id a)]) st i).
    + rewrite sent_sent. reflexivity.
    + simpl in Hi. lia.
    + intros j Lt. rewrite requests_sent. simpl.
      replace (List.length (requests w) + 1 + j)%nat
        with (List.length (requests w) + S j)%nat by lia.
      apply Hj. lia.
    + rewrite requests_sent. simpl.
      now replace (List.length (requests w) + 1 + i)%nat
        with (List.length (requests w) + S i)%nat by lia.
Qed.

Lemma fetchBody_rejected u w st i :
  (i < List.length (pipelineRequests u (store w)))%nat ->
  (forall j, (j < i)%nat -> fails w (List.length (requests w) + j) = false) ->
  fails w (List.length (requests w) + i) = true ->
  fetchBody u (w, st)
  = (Throw (NetworkError (nth i (pipelineRequests u (store w))
                              (GetCourses None))),
     (sent w (firstn (S i) (pipelineRequests u (store w))),
      match i with
      | O => st
      | S _ => mkState (assignments st) (resolvedScope u (store w))
                       (isLoading st) (isAddDialogOpen st) (newAssignment st)
      end)).
Proof.
  intros Hi Hj Fi.
  unfold fetchBody, get_courses, bind.
  rewrite round_trip_eq. fold (courseQuery u).
  destruct i as [|i].
  { rewrite Nat.add_0_r in Fi. rewrite Fi. reflexivity. }
  rewrite <- (Nat.add_0_r (List.length (requests w))).
  rewrite (Hj 0%nat) by lia.
  unfold getWorld, ret. cbn [fst snd].
  rewrite snapshot_courses.
  change (store (sent w [GetCourses (courseQuery u)])) with (store w).
  fold (resolvedScope u (store w)).
  unfold setCourses, modifyState. cbn [fst snd].
  rewrite pipelineRequests_length in Hi.
  unfold pipelineRequests.
  set (scope := resolvedScope u (store w)) in *.
  set (st1 := mkState (assignments st) scope
                      (isLoading st) (isAddDialogOpen st) (newAssignment st)).
  set (w1 := sent w [GetCourses (courseQuery u)]).
  set (rs1 := map (fun c => GetAssignments (course_key c)) scope).
  set (gathered := flat_map (gatheredOf (store w)) scope) in *.
  set (rs2 := map (fun a => GetSubmissions (id a)) gathered).
  assert (B1 : List.length (requests w1) = (List.length (requests w) + 1)%nat)
    by (unfold w1; now rewrite requests_sent).
  assert (N1 : List.length rs1 = List.length scope)
    by (unfold rs1; apply length_map).
  cbn [nth]. rewrite firstn_cons.
  destruct (Nat.lt_ge_cases i (List.length scope)) as [Lt|Ge].
  - rewrite (for_of_rejected scope [] w1 st1 i Lt).
    + fold rs1. unfold w1. rewrite sent_sent. cbn [app].
      rewrite app_nth1 by lia.
      rewrite firstn_app.
      replace (S i - List.length rs1)%nat with 0%nat by lia.
      cbn [firstn]. now rewrite app_nil_r.
    + intros j Lj. rewrite B1.
      replace (List.length (requests w) + 1 + j)%nat
        with (List.length (requests w) + S j)%nat by lia.
      apply Hj. lia.
    + rewrite B1.
      now replace (List.length (requests w) + 1 + i)%nat
        with (List.length (requests w) + S i)%nat by lia.
  - rewrite (for_of_accepted scope [] w1 st1).
    2:{ intros j Lj. rewrite B1.
        replace (List.length (requests w) + 1 + j)%nat
          with (List.length (requests w) + S j)%nat by lia.
        apply Hj. lia. }
    fold rs1. cbn [app].
    change (store w1) with (store w). fold gathered.
    rewrite (for_index_rejected gathered (sent w1 rs1) st1
                                (i - List.length scope)).
    + fold rs2. unfold w1. rewrite !sent_sent. cbn [app].
      rewrite app_nth2 by lia. rewrite N1.
      rewrite firstn_app.
      rewrite (firstn_all2 (n := S i) rs1) by lia.
      now replace (S i - List.length rs1)%nat
        with (S (i - List.length scope)) by lia.
    + lia.
    + intros j Lj. rewrite requests_sent, B1, N1.
      replace (List.length (requests w) + 1 + List.length scope + j)%nat
        with (List.length (requests w) + S (List.length scope + j))%nat by lia.
      apply Hj. lia.
    + rewrite requests_sent, B1, N1.
      now replace (List.length (requests w) + 1 + List.length scope
                   + (i - List.length scope))%nat
        with (List.length (requests w) + S i)%nat by lia.
Qed.

(** Every run of the pipeline sends a beginning of one fixed sequence of
    requests: all of it, or what comes up to the first rejected one. *)
Lemma fetchData_trace user u w st :
  present user = Some u ->
  requests (worldAfter (fetchData user (w, st)))
  = requests w
    ++ match rejectedAt (fails w) (List.length (requests w))
                        (List.length (pipelineRequests u (store w))) with
       | None => pipelineRequests u (store w)
       | Some i => firstn (S i) (pipelineRequests u (store w))
       end.
Proof.
  intros P.
  destruct (rejectedAt _ _ _) as [i|] eqn:E.
  - destruct (rejectedAt_some _ _ _ _ E) as (Hi & Fi & Hj).
    unfold fetchData. rewrite P. unfold try_catch_finally.
    rewrite (fetchBody_rejected u w st i Hi Hj Fi).
    cbv beta iota. rewrite catch_block_eq. reflexivity.
  - rewrite (fetchData_accepted user u w st P); [reflexivity|].
    intros i Hi. now apply (rejectedAt_none _ _ _ E).
Qed.

Lemma pipelineRequests_read u s : forallb isRead (pipelineRequests u s) = true.
Proof.
  unfold pipelineRequests. simpl. rewrite forallb_app.
  apply andb_true_intro. split; apply forallb_forall; intros r H;
    apply in_map_iff in H; destruct H as [x [<- _]]; reflexivity.
Qed.

Lemma forallb_firstn {A} (p : A -> bool) (l : list A) n :
  forallb p l = true -> forallb p (firstn n l) = true.
Proof.
  revert n. induction l as [|a l IH]; intros [|n] H; try reflexivity.
  simpl in *. apply andb_true_iff in H. destruct H as [Ha Hl].
  rewrite Ha. now apply IH.
Qed.

Lemma fetchData_store user w st :
  store (worldAfter (fetchData user (w, st))) = store w
  /\ reloads (worldAfter (fetchData user (w, st))) = reloads w.
Proof.
  destruct (present user) as [u|] eqn:P.
  - now destruct (fetchData_run user u w st P).
  - unfold fetchData. now rewrite P.
Qed.

(** X1.  A run of the pipeline that completes costs one round trip for the
    courses, one per course in scope and one per assignment shown. *)
Theorem fetch_round_trips user u w st :
  present user = Some u ->
  accepted u w ->
  let run := fetchData user (w, st) in
  List.length (requests (worldAfter run))
  = (List.length (requests w)
     + 1 + List.length (courses (stateAfter run))
     + List.length (assignments (stateAfter run)))%nat.
Proof.
  intros P A run. subst run.
  rewrite (fetchData_accepted user u w st P A).
  unfold worldAfter, stateAfter, loadedState; cbn [fst snd courses assignments].
  rewrite requests_sent, pipelineRequests_length.
  unfold pipeline.
  rewrite (Permutation_length (byCreatedDesc_perm _)), length_map. lia.
Qed.

Lemma fetch_round_trips_witness :
  present (Some Scenario.admin) = Some Scenario.admin
  /\ accepted Scenario.admin Scenario.calm
  /\ List.length
       (requests (worldAfter (fetchData (Some Scenario.admin)
                                        (Scenario.calm, initialState))))
     = (0 + 1 + 2 + 3)%nat.
Proof.
  split; [reflexivity|]. split; [exact (calm_accepted Scenario.admin)|].
  exact (fetch_round_trips (Some Scenario.admin) Scenario.admin Scenario.calm
                           initialState eq_refl
                           (calm_accepted Scenario.admin)).
Defined.

(** X2.  The pipeline stops at the first request that is rejected: the
    requests before it and the rejected one are sent in the order of a
    complete run, none is sent after it, and the error that is logged names
    the rejected request. *)
Theorem fetch_stops_at_first_rejection user u w st i :
  present user = Some u ->
  let all := pipelineRequests u (store w) in
  (i < List.length all)%nat ->
  (forall j, (j < i)%nat -> fails w (List.length (requests w) + j) = false) ->
  fails w (List.length (requests w) + i) = true ->
  let run := fetchData user (w, st) in
  requests (worldAfter run) = requests w ++ firstn (S i) all
  /\ console (worldAfter run)
     = console w ++ [NetworkError (nth i all (GetCourses None))].
Proof.
  intros P all Hi Hj Fi run. subst run all.
  unfold fetchData. rewrite P. unfold try_catch_finally.
  rewrite (fetchBody_rejected u w st i Hi Hj Fi).
  cbv beta iota. rewrite catch_block_eq. split; reflexivity.
Qed.

Lemma fetch_stops_at_first_rejection_witness :
  present (Some Scenario.admin) = Some Scenario.admin
  /\ fails (Scenario.failing 2) (0 + 2) = true
  /\ requests (worldAfter (fetchData (Some Scenario.admin)
                                     (Scenario.failing 2, initialState)))
     = [GetCourses None; GetAssignments "c1"; GetAssignments "c2"].
Proof.
  split; [reflexivity|]. split; [reflexivity|].
  refine (proj1 (fetch_stops_at_first_rejection
                   (Some Scenario.admin) Scenario.admin (Scenario.failing 2)
                   initialState 2%nat eq_refl _ _ eq_refl)).
  - vm_compute. lia.
  - intros [|[|j]] Hj; [reflexivity | reflexivity | lia].
Defined.

(** X3.  Loading never writes: whatever the user, the world and the
    outcome, a run of the pipeline leaves the store as it was, asks for no
    reload and sends nothing but queries. *)
Theorem fetch_only_reads user w st :
  let run := fetchData user (w, st) in
  store (worldAfter run) = store w
  /\ reloads (worldAfter run) = reloads w
  /\ exists rs, requests (worldAfter run) = requests w ++ rs
                /\ forallb isRead rs = true.
Proof.
  intros run. subst run.
  destruct (fetchData_store user w st) as [S R].
  split; [exact S|]. split; [exact R|].
  destruct (present user) as [u|] eqn:P.
  - rewrite (fetchData_trace user u w st P).
    eexists. split; [reflexivity|].
    destruct (rejectedAt _ _ _).
    + apply forallb_firstn, pipelineRequests_read.
    + apply pipelineRequests_read.
  - exists []. unfold fetchData. rewrite P. simpl.
    now rewrite app_nil_r.
Qed.

(** ** More on the sort *)

Section SortAndFilter.

Context {A : Type}.
Variable key : A -> Z.

Let cmp (a b : A) : Z := key b - key a.

Lemma insert_in_front a l :
  Forall (fun y => key y <= key a) l -> insert cmp a l = a :: l.
Proof.
  intros H. destruct l as [|x l]; [reflexivity|].
  simpl. inversion H as [|? ? Hx _]; subst.
  unfold cmp. now rewrite (proj2 (Z.leb_le _ _)) by lia.
Qed.

Lemma sort_of_sorted l :
  StronglySorted (descending key) l -> sort cmp l = l.
Proof.
  induction 1 as [|a l Hs IH Ha]; [reflexivity|].
  simpl. fold (sort cmp l). rewrite IH. now apply insert_in_front.
Qed.

Lemma sorted_filter (p : A -> bool) l :
  StronglySorted (descending key) l ->
  StronglySorted (descending key) (filter p l).
Proof.
  induction 1 as [|a l Hs IH Ha]; simpl; [constructor|].
  destruct (p a); [|exact IH].
  constructor; [exact IH|].
  apply Forall_forall. intros x Hx. apply filter_In in Hx.
  rewrite Forall_forall in Ha. now apply Ha.
Qed.

Lemma filter_insert (p : A -> bool) a l :
  StronglySorted (descending key) l ->
  filter p (insert cmp a l)
  = if p a then insert cmp a (filter p l) else filter p l.
Proof.
  induction 1 as [|x l Hs IH Hx]; [simpl; now destruct (p a)|].
  cbn [insert]. destruct (Z.leb (cmp a x) 0) eqn:E.
  - apply Z.leb_le in E. unfold cmp in E.
    cbn [filter]. destruct (p a); [|reflexivity].
    symmetry. apply insert_in_front.
    apply Forall_forall. intros y Hy.
    change (if p x then x :: filter p l else filter p l)
      with (filter p (x :: l)) in Hy.
    apply filter_In in Hy. destruct Hy as [[<- | Hy] _]; [lia|].
    rewrite Forall_forall in Hx. specialize (Hx y Hy).
    unfold descending in Hx. lia.
  - cbn [filter]. rewrite IH.
    destruct (p x), (p a); try reflexivity.
    cbn [insert]. now rewrite E.
Qed.

Lemma sort_filter (p : A -> bool) l :
  filter p (sort cmp l) = sort cmp (filter p l).
Proof.
  induction l as [|a l IH]; [reflexivity|].
  simpl sort at 1. fold (sort cmp l).
  rewrite filter_insert by apply (sort_sorted key).
  cbn [filter]. destruct (p a); [|exact IH].
  simpl. fold (sort cmp (filter p l)). now rewrite IH.
Qed.

End SortAndFilter.

(** X4.  The ordering is a fixed point: a sequence that is already in
    descending order of [created_at] comes out of the sort as it went in, so
    sorting the shown sequence again changes nothing. *)
Theorem sort_keeps_sorted :
  (forall l,
     StronglySorted
       (fun a b => getTime (a_created_at (val b))
                   <= getTime (a_created_at (val a))) l ->
     sort byCreatedDesc l = l)
  /\ forall l, sort byCreatedDesc (sort byCreatedDesc l) = sort byCreatedDesc l.
Proof.
  split.
  - intros l H. now apply (sort_of_sorted created_time).
  - intros l. apply (sort_of_sorted created_time), byCreatedDesc_sorted.
Qed.

Lemma sort_keeps_sorted_witness :
  StronglySorted
    (fun a b => getTime (a_created_at (val b))
                <= getTime (a_created_at (val a)))
    [Scenario.E2; Scenario.E1; Scenario.E3]
  /\ sort byCreatedDesc [Scenario.E2; Scenario.E1; Scenario.E3]
     = [Scenario.E2; Scenario.E1; Scenario.E3].
Proof.
  assert (H : StronglySorted
                (fun a b => getTime (a_created_at (val b))
                            <= getTime (a_created_at (val a)))
                [Scenario.E2; Scenario.E1; Scenario.E3]).
  { repeat constructor; simpl; unfold Scenario.T1, Scenario.T2; lia. }
  split; [exact H|].
  exact (proj1 sort_keeps_sorted _ H).
Defined.

(** ** Keys and ids *)

Lemma keys_functional {V} (c : Collection V) k v v' :
  NoDup (map fst c) -> In (k, v) c -> In (k, v') c -> v = v'.
Proof.
  induction c as [|[k0 v0] c IH]; simpl; intros N H H'; [contradiction|].
  inversion N as [|? ? Hn N']; subst.
  destruct H as [H|H], H' as [H'|H'].
  - congruence.
  - injection H as -> ->. exfalso. apply Hn.
    apply in_map_iff. now exists (k, v').
  - injection H' as -> ->. exfalso. apply Hn.
    apply in_map_iff. now exists (k, v).
  - now apply IH.
Qed.

Lemma keys_filter {V} (p : string * V -> bool) (c : Collection V) :
  NoDup (map fst c) -> NoDup (map fst (filter p c)).
Proof.
  induction c as [|kv c IH]; simpl; intros N; [constructor|].
  inversion N as [|? ? Hn N']; subst.
  destruct (p kv); [|now apply IH].
  simpl. constructor; [|now apply IH].
  intros H. apply Hn. apply in_map_iff in H. destruct H as [x [E H]].
  apply filter_In in H. apply in_map_iff. exists x. tauto.
Qed.

Lemma ids_gatheredOf s course :
  map id (gatheredOf s course)
  = map fst (equalTo a_course_id (course_key course) (st_assignments s)).
Proof.
  unfold gatheredOf, forEach. rewrite map_map. reflexivity.
Qed.

Lemma ids_gathered s : forall scope,
  NoDup (map course_key scope) ->
  NoDup (map fst (st_assignments s)) ->
  NoDup (map id (flat_map (gatheredOf s) scope)).
Proof.
  induction scope as [|c scope IH]; simpl; intros Nc Na; [constructor|].
  inversion Nc as [|? ? Hn Nc']; subst.
  rewrite map_app. apply NoDup_app.
  - rewrite ids_gatheredOf. now apply keys_filter.
  - now apply IH.
  - intros k H H'.
    rewrite ids_gatheredOf in H.
    apply in_map_iff in H. destruct H as [[k1 v1] [E1 H]]. simpl in E1. subst k1.
    apply in_equalTo in H. destruct H as [H C]. simpl in C.
    apply in_map_iff in H'. destruct H' as [a [E2 H']].
    apply in_flat_map in H'. destruct H' as [c' [Hc' H']].
    apply in_gatheredOf in H'. destruct H' as (H' & C' & _).
    rewrite E2 in H'.
    rewrite (keys_functional _ _ _ _ Na H H') in C.
    apply Hn. apply in_map_iff. exists c'. split; [congruence | exact Hc'].
Qed.

Lemma keys_resolvedScope u s :
  NoDup (map fst (st_courses s)) ->
  NoDup (map course_key (resolvedScope u s)).
Proof.
  intros N. unfold resolvedScope, forEach. rewrite map_map. simpl.
  destruct (courseQuery u); [now apply keys_filter | exact N].
Qed.

Lemma ids_pipeline u s :
  Permutation (map id (pipeline u s))
              (map id (flat_map (gatheredOf s) (resolvedScope u s))).
Proof.
  unfold pipeline. rewrite (Permutation_map id (byCreatedDesc_perm _)).
  rewrite map_map. reflexivity.
Qed.

(** X5.  When the keys of the stored courses and of the stored assignments
    are unique, as the keys of a collection are, a completed run shows no
    assignment twice: the ids of the shown sequence are pairwise distinct. *)
Theorem shown_ids_unique user u w st :
  present user = Some u ->
  accepted u w ->
  NoDup (map fst (st_courses (store w))) ->
  NoDup (map fst (st_assignments (store w))) ->
  NoDup (map id (assignments (stateAfter (fetchData user (w, st))))).
Proof.
  intros P A Nc Na.
  rewrite (fetchData_accepted user u w st P A).
  unfold stateAfter, loadedState; cbn [fst snd assignments].
  eapply Permutation_NoDup; [symmetry; apply ids_pipeline|].
  apply ids_gathered; [now apply keys_resolvedScope | exact Na].
Qed.

Lemma shown_ids_unique_witness :
  present (Some Scenario.admin) = Some Scenario.admin
  /\ accepted Scenario.admin Scenario.calm
  /\ NoDup (map id (assignments
                      (stateAfter (fetchData (Some Scenario.admin)
                                             (Scenario.calm, initialState))))).
Proof.
  split; [reflexivity|]. split; [exact (calm_accepted Scenario.admin)|].
  refine (shown_ids_unique (Some Scenario.admin) Scenario.admin Scenario.calm
                           initialState eq_refl
                           (calm_accepted Scenario.admin) _ _).
  - repeat constructor; simpl; intuition discriminate.
  - repeat constructor; simpl; intuition discriminate.
Defined.

(** ** Deleting, creating and fetching together *)

Lemma filter_other_ids key (l : list EnrichedAssignment) :
  (forall b, In b l -> id b <> key) ->
  filter (fun a => negb (String.eqb (id a) key)) l = l.
Proof.
  intros H. apply forallb_filter_id, forallb_forall.
  intros b Hb. apply negb_true_iff, String.eqb_neq. now apply H.
Qed.

(** X6.  In a sequence whose ids are pairwise distinct, a confirmed and
    accepted deletion of the id of a shown assignment takes exactly one
    element away. *)
Theorem delete_takes_one_away assignmentId w st :
  NoDup (map id (assignments st)) ->
  In assignmentId (map id (assignments st)) ->
  fails w (List.length (requests w)) = false ->
  S (List.length
       (assignments
          (stateAfter (handleDeleteAssignment true assignmentId (w, st)))))
  = List.length (assignments st).
Proof.
  intros N H F. rewrite (delete_accepted assignmentId w st F).
  unfold stateAfter; cbn [fst snd assignments].
  apply in_map_iff in H. destruct H as [a [E H]].
  apply in_split in H. destruct H as [l1 [l2 L]]. rewrite L in N |- *.
  rewrite map_app in N. simpl in N. apply NoDup_remove in N.
  destruct N as [_ N]. rewrite <- map_app in N.
  rewrite filter_app. cbn [filter].
  rewrite (proj2 (String.eqb_eq _ _) E). cbn [negb].
  rewrite <- filter_app, filter_other_ids.
  - rewrite !length_app. simpl. lia.
  - intros b Hb Eb. apply N. apply in_map_iff. exists b.
    split; [congruence | exact Hb].
Qed.

Lemma delete_takes_one_away_witness :
  NoDup (map id [Scenario.E2; Scenario.E1; Scenario.E3])
  /\ In "a1" (map id [Scenario.E2; Scenario.E1; Scenario.E3])
  /\ S (List.length
          (assignments
             (stateAfter
                (handleDeleteAssignment true "a1"
                   (Scenario.calm,
                    mkState [Scenario.E2; Scenario.E1; Scenario.E3] [] false
                            false emptyForm)))))
     = 3%nat.
Proof.
  assert (N : NoDup (map id [Scenario.E2; Scenario.E1; Scenario.E3]))
    by (repeat constructor; simpl; intuition discriminate).
  assert (H : In "a1" (map id [Scenario.E2; Scenario.E1; Scenario.E3]))
    by (right; left; reflexivity).
  split; [exact N|]. split; [exact H|].
  exact (delete_takes_one_away "a1" Scenario.calm
           (mkState [Scenario.E2; Scenario.E1; Scenario.E3] [] false false
                    emptyForm) N H eq_refl).
Defined.

Lemma filter_flat_map {A B} (p : B -> bool) (f : A -> list B) l :
  filter p (flat_map f l) = flat_map (fun x => filter p (f x)) l.
Proof.
  induction l as [|x l IH]; [reflexivity|].
  simpl. now rewrite filter_app, IH.
Qed.

Lemma filter_map_swap {A B} (p : B -> bool) (f : A -> B) l :
  filter p (map f l) = map f (filter (fun x => p (f x)) l).
Proof.
  induction l as [|x l IH]; [reflexivity|].
  simpl. destruct (p (f x)); simpl; now rewrite IH.
Qed.

Lemma filter_filter_swap {A} (p q : A -> bool) l :
  filter p (filter q l) = filter q (filter p l).
Proof.
  induction l as [|x l IH]; [reflexivity|].
  simpl. destruct (p x) eqn:Ep, (q x) eqn:Eq; simpl;
    rewrite ?Ep, ?Eq, IH; reflexivity.
Qed.

(** What the pipeline would load once the child [key] is gone from the
    store is what it loads now, less the assignments of that id. *)
Lemma pipeline_deleted u w key :
  pipeline u (store (deletedWorld w key))
  = filter (fun a => negb (String.eqb (id a) key)) (pipeline u (store w)).
Proof.
  unfold pipeline.
  rewrite (sort_filter created_time).
  f_equal.
  rewrite filter_map_swap. cbn [id countedOf set_submissions_count].
  change (resolvedScope u (store (deletedWorld w key)))
    with (resolvedScope u (store w)).
  rewrite filter_flat_map.
  unfold countedOf at 1. cbn [deletedWorld store st_submissions].
  fold (countedOf (store w)). f_equal.
  induction (resolvedScope u (store w)) as [|c cs IH]; [reflexivity|].
  simpl. rewrite IH. f_equal.
  unfold gatheredOf, forEach, equalTo. cbn [st_assignments].
  rewrite filter_map_swap. cbn [id enrich fst]. f_equal.
  apply filter_filter_swap.
Qed.

(** X7.  The local update of a deletion agrees with the store: after a
    completed load and a confirmed, accepted deletion, loading again from
    the store gives exactly the component state that the deletion left. *)
Theorem delete_agrees_with_refetch user u w st assignmentId :
  present user = Some u ->
  accepted u w ->
  let loaded := fetchData user (w, st) in
  fails (worldAfter loaded) (List.length (requests (worldAfter loaded))) = false ->
  let deleted := handleDeleteAssignment true assignmentId (snd loaded) in
  accepted u (worldAfter deleted) ->
  stateAfter (fetchData user (snd deleted)) = stateAfter deleted.
Proof.
  intros P A loaded F deleted A'. subst deleted loaded. revert F A'.
  rewrite (fetchData_accepted user u w st P A).
  unfold worldAfter; cbn [fst snd].
  intros F. rewrite (delete_accepted assignmentId _ _ F). cbn [fst snd].
  intros A'. rewrite (fetchData_accepted user u _ _ P A').
  unfold stateAfter, loadedState; cbn [fst snd assignments courses isLoading
                                        isAddDialogOpen newAssignment].
  rewrite pipeline_deleted. reflexivity.
Qed.

Lemma delete_agrees_with_refetch_witness :
  present (Some Scenario.admin) = Some Scenario.admin
  /\ accepted Scenario.admin Scenario.calm
  /\ assignments
       (stateAfter
          (fetchData (Some Scenario.admin)
             (snd (handleDeleteAssignment true "a1"
                     (snd (fetchData (Some Scenario.admin)
                                     (Scenario.calm, initialState)))))))
     = [Scenario.E2; Scenario.E3].
Proof.
  split; [reflexivity|]. split; [exact (calm_accepted Scenario.admin)|].
  refine (eq_trans
            (f_equal assignments
               (delete_agrees_with_refetch
                  (Some Scenario.admin) Scenario.admin Scenario.calm
                  initialState "a1" eq_refl (calm_accepted Scenario.admin)
                  eq_refl _))
            eq_refl).
  intros i _. reflexivity.
Defined.

(** X8.  Removing what was just created undoes the creation in the store:
    when the generated key is not yet a key of the assignments, a creation
    followed by a confirmed deletion of the new key, both accepted, leaves
    the store as it was before the creation. *)
Theorem create_then_delete_restores_store u w st :
  na_title (newAssignment st) <> "" ->
  na_course_id (newAssignment st) <> "" ->
  fails w (List.length (requests w)) = false ->
  let key := push_keys w (List.length (requests w)) in
  ~ In key (map fst (st_assignments (store w))) ->
  let created := handleCreateAssignment (Some u) (w, st) in
  fails (worldAfter created) (List.length (requests (worldAfter created))) = false ->
  store (worldAfter (handleDeleteAssignment true key (snd created)))
  = store w.
Proof.
  intros Ht Hc F key Fresh created F'. subst created. revert F'.
  assert (I : ~ invalidForm (newAssignment st)) by (unfold invalidForm; tauto).
  rewrite (create_accepted u w st I F).
  unfold worldAfter; cbn [fst snd].
  intros F'. rewrite (delete_accepted key _ _ F').
  unfold deletedWorld, createdWorld; cbn.
  fold key. rewrite filter_app. cbn [filter fst].
  rewrite String.eqb_refl. cbn [negb]. rewrite app_nil_r.
  rewrite forallb_filter_id; [now destruct (store w)|].
  apply forallb_forall. intros [k v] Hin. cbn [fst].
  apply negb_true_iff, String.eqb_neq. intros ->.
  apply Fresh. apply in_map_iff. now exists (key, v).
Qed.

Lemma create_then_delete_restores_store_witness :
  "Fields" <> "" /\ "c1" <> ""
  /\ ~ In "a4" (map fst (st_assignments Scenario.school))
  /\ store (worldAfter
              (handleDeleteAssignment true "a4"
                 (snd (handleCreateAssignment (Some Scenario.U1)
                         (Scenario.calm, Scenario.filled)))))
     = Scenario.school.
Proof.
  assert (Ht : "Fields" <> "") by discriminate.
  assert (Hc : "c1" <> "") by discriminate.
  assert (Fresh : ~ In "a4" (map fst (st_assignments Scenario.school)))
    by (simpl; intuition discriminate).
  split; [exact Ht|]. split; [exact Hc|]. split; [exact Fresh|].
  exact (create_then_delete_restores_store Scenario.U1 Scenario.calm
           Scenario.filled Ht Hc eq_refl Fresh eq_refl).
Defined.

(** X9.  Loading twice shows what loading once shows: a second completed
    run over an unchanged store starts from fresh local sequences and
    leaves the component state exactly as the first run left it. *)
Theorem refetch_is_stable user u w st :
  present user = Some u ->
  accepted u w ->
  let loaded := fetchData user (w, st) in
  accepted u (worldAfter loaded) ->
  stateAfter (fetchData user (snd loaded)) = stateAfter loaded.
Proof.
  intros P A loaded A'. subst loaded. revert A'.
  rewrite (fetchData_accepted user u w st P A).
  unfold worldAfter; cbn [fst snd].
  intros A'. rewrite (fetchData_accepted user u _ _ P A').
  reflexivity.
Qed.

Lemma refetch_is_stable_witness :
  present (Some Scenario.U1) = Some Scenario.U1
  /\ accepted Scenario.U1 Scenario.calm
  /\ stateAfter
       (fetchData (Some Scenario.U1)
          (snd (fetchData (Some Scenario.U1) (Scenario.calm, initialState))))
     = stateAfter (fetchData (Some Scenario.U1) (Scenario.calm, initialState)).
Proof.
  split; [reflexivity|]. split; [exact (calm_accepted Scenario.U1)|].
  refine (refetch_is_stable (Some Scenario.U1) Scenario.U1 Scenario.calm
                            initialState eq_refl
                            (calm_accepted Scenario.U1) _).
  intros i _. reflexivity.
Defined.

(** ** The derived views *)

(** X10.  After a completed run the pending-grading view holds exactly the
    shown assignments for which the store has at least one submission. *)
Theorem pending_view_after_load user u w st :
  present user = Some u ->
  accepted u w ->
  let st' := stateAfter (fetchData user (w, st)) in
  forall a,
    In a (pendingGrading st') <->
    In a (assignments st')
    /\ exists k sv, In (k, sv) (st_submissions (store w))
                    /\ s_assignment_id sv = id a.
Proof.
  intros P A st' a. subst st'.
  rewrite (fetchData_accepted user u w st P A).
  unfold stateAfter, loadedState, pendingGrading;
    cbn [fst snd assignments].
  rewrite filter_In. split.
  - intros [H C]. split; [exact H|].
    apply in_pipeline in H. destruct H as (_ & _ & _ & _ & _ & N).
    rewrite N in C. apply Nat.ltb_lt in C.
    destruct (equalTo s_assignment_id (id a) (st_submissions (store w)))
      as [|[k sv] l] eqn:E; [simpl in C; lia|].
    assert (H : In (k, sv) (equalTo s_assignment_id (id a)
                                    (st_submissions (store w))))
      by (rewrite E; now left).
    apply in_equalTo in H. exists k, sv. exact H.
  - intros [H (k & sv & Hs & E)]. split; [exact H|].
    apply in_pipeline in H. destruct H as (_ & _ & _ & _ & _ & N).
    rewrite N. apply Nat.ltb_lt.
    assert (Hin : In (k, sv) (equalTo s_assignment_id (id a)
                                      (st_submissions (store w))))
      by (apply in_equalTo; now split).
    destruct (equalTo _ _ _); [contradiction | simpl; lia].
Qed.

Lemma pending_view_after_load_witness :
  present (Some Scenario.U1) = Some Scenario.U1
  /\ accepted Scenario.U1 Scenario.calm
  /\ In Scenario.E1
        (pendingGrading
           (stateAfter (fetchData (Some Scenario.U1)
                                  (Scenario.calm, initialState)))).
Proof.
  split; [reflexivity|]. split; [exact (calm_accepted Scenario.U1)|].
  apply (pending_view_after_load (Some Scenario.U1) Scenario.U1 Scenario.calm
                                 initialState eq_refl
                                 (calm_accepted Scenario.U1) Scenario.E1).
  split; [left; reflexivity|].
  exists "s1", (mkSubmissionVal "a1"). split; [left; reflexivity | reflexivity].
Defined.

(** X11.  Both derived views of a completed run list the most recently
    created assignment first, like the sequence they are taken from. *)
Theorem views_keep_the_order user u w st now :
  present user = Some u ->
  accepted u w ->
  let st' := stateAfter (fetchData user (w, st)) in
  StronglySorted
    (fun a b => getTime (a_created_at (val b))
                <= getTime (a_created_at (val a)))
    (activeAssignments now st')
  /\ StronglySorted
       (fun a b => getTime (a_created_at (val b))
                   <= getTime (a_created_at (val a)))
       (pendingGrading st').
Proof.
  intros P A st'. subst st'.
  rewrite (fetchData_accepted user u w st P A).
  unfold stateAfter, loadedState, activeAssignments, pendingGrading;
    cbn [fst snd assignments].
  split; apply (sorted_filter created_time), byCreatedDesc_sorted.
Qed.

Lemma views_keep_the_order_witness :
  present (Some Scenario.admin) = Some Scenario.admin
  /\ accepted Scenario.admin Scenario.calm
  /\ StronglySorted
       (fun a b => getTime (a_created_at (val b))
                   <= getTime (a_created_at (val a)))
       (pendingGrading
          (stateAfter (fetchData (Some Scenario.admin)
                                 (Scenario.calm, initialState)))).
Proof.
  split; [reflexivity|]. split; [exact (calm_accepted Scenario.admin)|].
  exact (proj2 (views_keep_the_order
                  (Some Scenario.admin) Scenario.admin Scenario.calm
                  initialState 0 eq_refl (calm_accepted Scenario.admin))).
Defined.

(** X12.  Time only takes assignments out of the active view: what is
    active at a later moment was active at every earlier one, so the view
    never grows as time passes. *)
Theorem active_view_shrinks earlier later st :
  earlier <= later ->
  (forall a, In a (activeAssignments later st) ->
             In a (activeAssignments earlier st))
  /\ (List.length (activeAssignments later st)
      <= List.length (activeAssignments earlier st))%nat.
Proof.
  intros Le.
  assert (M : forall a, isActive later a = true -> isActive earlier a = true).
  { intros a. unfold isActive. destruct (a_due_date (val a)) as [d|]; simpl; auto.
    rewrite !negb_true_iff, !Z.ltb_ge. lia. }
  unfold activeAssignments. split.
  - intros a H. apply filter_In in H. apply filter_In.
    split; [tauto | apply M; tauto].
  - induction (assignments st) as [|a l IH]; [reflexivity|].
    simpl. destruct (isActive later a) eqn:E.
    + rewrite (M a E). simpl. lia.
    + destruct (isActive earlier a); simpl; lia.
Qed.

Lemma active_view_shrinks_witness :
  Scenario.T1 <= Scenario.T2
  /\ (List.length
        (activeAssignments Scenario.T2
           (mkState [Scenario.E2; Scenario.E1; Scenario.E3] [] false false
                    emptyForm))
      <= List.length
           (activeAssignments Scenario.T1
              (mkState [Scenario.E2; Scenario.E1; Scenario.E3] [] false false
                       emptyForm)))%nat.
Proof.
  assert (Le : Scenario.T1 <= Scenario.T2) by discriminate.
  split; [exact Le|].
  exact (proj2 (active_view_shrinks Scenario.T1 Scenario.T2
                  (mkState [Scenario.E2; Scenario.E1; Scenario.E3] [] false
                           false emptyForm) Le)).
Defined.

(** ** The points input *)

Lemma parseDigits_numeral d : forall acc,
  parseDigits 10 (DecimalString.NilEmpty.string_of_uint d) (Some acc)
  = Some (numeralValue d acc).
Proof.
  induction d; intros acc; try reflexivity;
    cbn [DecimalString.NilEmpty.string_of_uint parseDigits numeralValue];
    apply IHd.
Qed.

Lemma parseDigits_numeral_start d :
  d <> Decimal.Nil ->
  parseDigits 10 (DecimalString.NilEmpty.string_of_uint d) None
  = Some (numeralValue d 0).
Proof.
  destruct d; intros N; try contradiction;
    cbn [DecimalString.NilEmpty.string_of_uint parseDigits numeralValue];
    apply parseDigits_numeral.
Qed.

Lemma numeralValue_pos d : forall acc,
  numeralValue d (Z.pos acc) = Z.pos (Pos.of_uint_acc d acc).
Proof.
  induction d; intros acc; cbn [numeralValue Pos.of_uint_acc];
    try reflexivity;
    match goal with
    | |- numeralValue _ ?a = _ =>
        match goal with
        | |- _ = Z.pos (Pos.of_uint_acc _ ?b) =>
            replace a with (Z.pos b) by lia
        end
    end; apply IHd.
Qed.

Lemma numeralValue_of_uint d :
  numeralValue d 0 = Z.of_N (Pos.of_uint d).
Proof.
  induction d; cbn [numeralValue Pos.of_uint]; try reflexivity;
    try exact IHd;
    change (10 * 0 + ?k) with k; apply numeralValue_pos.
Qed.

Lemma numeralValue_to_uint p :
  numeralValue (Pos.to_uint p) 0 = Z.pos p.
Proof.
  rewrite numeralValue_of_uint, DecimalPos.Unsigned.of_to. reflexivity.
Qed.

Lemma to_uint_not_nil p : Pos.to_uint p <> Decimal.Nil.
Proof.
  intros E. pose proof (DecimalPos.Unsigned.of_to p) as H.
  rewrite E in H. discriminate H.
Qed.

(** A numeral is read in radix 10 to its end: it has no sign and no white
    space, and the character after a leading [0] is a digit, never [x]. *)
Lemma parseInt_numeral d :
  d <> Decimal.Nil ->
  parseInt (DecimalString.NilEmpty.string_of_uint d)
  = option_map (Z.mul 1)
      (parseDigits 10 (DecimalString.NilEmpty.string_of_uint d) None).
Proof.
  destruct d as [|d|d|d|d|d|d|d|d|d|d]; intros N; try contradiction;
    try reflexivity.
  destruct d; reflexivity.
Qed.

Lemma parseInt_minus_numeral d :
  d <> Decimal.Nil ->
  parseInt (String "-" (DecimalString.NilEmpty.string_of_uint d))
  = option_map (Z.mul (-1))
      (parseDigits 10 (DecimalString.NilEmpty.string_of_uint d) None).
Proof.
  destruct d as [|d|d|d|d|d|d|d|d|d|d]; intros N; try contradiction;
    try reflexivity.
  destruct d; reflexivity.
Qed.

Lemma parseInt_showPoints z : parseInt (showPoints z) = Some z.
Proof.
  destruct z as [|p|p]; [reflexivity| |]; unfold showPoints; simpl Z.to_int;
    cbn [DecimalString.NilEmpty.string_of_int].
  - rewrite parseInt_numeral, parseDigits_numeral_start
      by apply to_uint_not_nil.
    simpl. rewrite numeralValue_to_uint. reflexivity.
  - rewrite parseInt_minus_numeral, parseDigits_numeral_start
      by apply to_uint_not_nil.
    simpl option_map. rewrite numeralValue_to_uint. reflexivity.
Qed.

(** X13.  The points input reads back what it shows: entering the decimal
    numeral of an integer, negative or not, makes that integer the points
    of the form and leaves the rest of the form as it was.  The integer is
    one that a number holds exactly (at most 2^53 in absolute value), for
    which [parseInt] loses nothing. *)
Theorem points_read_back z w st :
  Z.abs z <= 2 ^ 53 ->
  parseInt (showPoints z) = Some z
  /\ newAssignment (stateAfter (handlePointsChange (showPoints z) (w, st)))
     = mkNewAssignment (na_title (newAssignment st))
                       (na_description (newAssignment st))
                       (na_course_id (newAssignment st))
                       (na_due_date (newAssignment st)) z.
Proof.
  intros _.
  split; [apply parseInt_showPoints|].
  unfold handlePointsChange. rewrite parseInt_showPoints. reflexivity.
Qed.

Lemma points_read_back_witness :
  Z.abs (-250) <= 2 ^ 53
  /\ parseInt "-250" = Some (-250).
Proof.
  assert (B : Z.abs (-250) <= 2 ^ 53) by (vm_compute; discriminate).
  split; [exact B|].
  exact (proj1 (points_read_back (-250) Scenario.calm initialState B)).
Defined.

(** ** The creation dialog *)

(** X14.  Filling in the form is local and order-free: an edit sends
    nothing, notifies nothing and leaves everything but the form as it was;
    two edits of different fields give the same form in either order, and
    of two edits of one field the later one stands. *)
Theorem form_edits_are_local :
  (forall e w st,
     let run := applyEdit e (w, st) in
     outcomeOf run = Ok tt
     /\ worldAfter run = w
     /\ assignments (stateAfter run) = assignments st
     /\ courses (stateAfter run) = courses st
     /\ isLoading (stateAfter run) = isLoading st
     /\ isAddDialogOpen (stateAfter run) = isAddDialogOpen st)
  /\ (forall e1 e2 s,
        editedField e1 <> editedField e2 ->
        (applyEdit e1 ;; applyEdit e2) s = (applyEdit e2 ;; applyEdit e1) s)
  /\ (forall e1 e2 s,
        editedField e1 = editedField e2 ->
        (applyEdit e1 ;; applyEdit e2) s = applyEdit e2 s).
Proof.
  split; [|split].
  - intros [[v|v|v]|v|v] w st; repeat split.
  - intros [[v1|v1|v1]|v1|v1] [[v2|v2|v2]|v2|v2] [w st] N;
      try (exfalso; apply N; reflexivity); reflexivity.
  - intros [[v1|v1|v1]|v1|v1] [[v2|v2|v2]|v2|v2] [w st] E;
      try discriminate E; reflexivity.
Qed.

Lemma form_edits_are_local_witness :
  editedField (EditPoints "20") <> editedField (EditCourse "c1")
  /\ editedField (EditPoints "20") = editedField (EditPoints "30")
  /\ (applyEdit (EditPoints "20") ;; applyEdit (EditCourse "c1"))
       (Scenario.calm, initialState)
     = (applyEdit (EditCourse "c1") ;; applyEdit (EditPoints "20"))
         (Scenario.calm, initialState)
  /\ (applyEdit (EditPoints "20") ;; applyEdit (EditPoints "30"))
       (Scenario.calm, initialState)
     = applyEdit (EditPoints "30") (Scenario.calm, initialState).
Proof.
  assert (N : editedField (EditPoints "20") <> editedField (EditCourse "c1"))
    by discriminate.
  split; [exact N|]. split; [reflexivity|]. split.
  - exact (proj1 (proj2 form_edits_are_local) _ _
                 (Scenario.calm, initialState) N).
  - exact (proj2 (proj2 form_edits_are_local)
                 (EditPoints "20") (EditPoints "30")
                 (Scenario.calm, initialState) eq_refl).
Defined.

(** X15.  Without a signed-in user a valid form is not submitted: reading
    the user's id throws before anything is sent, the error is caught,
    logged and notified, and store, form and shown sequences stay as they
    were. *)
Theorem create_without_user w st :
  na_title (newAssignment st) <> "" ->
  na_course_id (newAssignment st) <> "" ->
  let run := handleCreateAssignment None (w, st) in
  outcomeOf run = Ok tt
  /\ requests (worldAfter run) = requests w
  /\ store (worldAfter run) = store w
  /\ reloads (worldAfter run) = reloads w
  /\ toasts (worldAfter run)
     = toasts w ++ [toast_error "Failed to create assignment"]
  /\ (exists msg, console (worldAfter run) = console w ++ [TypeError msg])
  /\ stateAfter run = st.
Proof.
  intros Ht Hc run. subst run.
  assert (I : ~ invalidForm (newAssignment st)) by (unfold invalidForm; tauto).
  rewrite (create_no_user w st I).
  unfold outcomeOf, worldAfter, stateAfter, caught; cbn.
  repeat split. eexists. reflexivity.
Qed.

Lemma create_without_user_witness :
  "Fields" <> "" /\ "c1" <> ""
  /\ stateAfter (handleCreateAssignment None (Scenario.calm, Scenario.filled))
     = Scenario.filled.
Proof.
  assert (Ht : "Fields" <> "") by discriminate.
  assert (Hc : "c1" <> "") by discriminate.
  split; [exact Ht|]. split; [exact Hc|].
  exact (proj2 (proj2 (proj2 (proj2 (proj2 (proj2
           (create_without_user Scenario.calm Scenario.filled Ht Hc))))))).
Defined.

(** ** What the handlers never do *)

(** X16.  The component writes nothing but whole assignments: no handler
    changes the courses or the submissions of the store, a creation leaves
    the assignments as they were or adds one child at their end, and a
    deletion leaves them as they were or takes the children under the given
    key away; no stored assignment is ever modified. *)
Theorem store_is_only_appended_or_pruned user confirmed key w st :
  let created := store (worldAfter (handleCreateAssignment user (w, st))) in
  let deleted :=
    store (worldAfter (handleDeleteAssignment confirmed key (w, st))) in
  st_courses created = st_courses (store w)
  /\ st_submissions created = st_submissions (store w)
  /\ (st_assignments created = st_assignments (store w)
      \/ exists k v, st_assignments created
                     = st_assignments (store w) ++ [(k, v)])
  /\ st_courses deleted = st_courses (store w)
  /\ st_submissions deleted = st_submissions (store w)
  /\ (st_assignments deleted = st_assignments (store w)
      \/ st_assignments deleted
         = filter (fun kv => negb (String.eqb (fst kv) key))
                  (st_assignments (store w))).
Proof.
  intros created deleted. subst created deleted.
  assert (C : st_courses (store (worldAfter (handleCreateAssignment user (w, st))))
              = st_courses (store w)
              /\ st_submissions
                   (store (worldAfter (handleCreateAssignment user (w, st))))
                 = st_submissions (store w)
              /\ (st_assignments
                    (store (worldAfter (handleCreateAssignment user (w, st))))
                  = st_assignments (store w)
                  \/ exists k v,
                       st_assignments
                         (store (worldAfter
                                   (handleCreateAssignment user (w, st))))
                       = st_assignments (store w) ++ [(k, v)])).
  { destruct (invalidForm_dec (newAssignment st)) as [I|I].
    - rewrite (create_invalid user w st I). repeat split. now left.
    - destruct user as [u|].
      + destruct (fails w (List.length (requests w))) eqn:F.
        * rewrite (create_rejected u w st I F). repeat split. now left.
        * rewrite (create_accepted u w st I F). repeat split.
          right. eexists _, _. reflexivity.
      + rewrite (create_no_user w st I). repeat split. now left. }
  destruct C as (C1 & C2 & C3).
  split; [exact C1|]. split; [exact C2|]. split; [exact C3|].
  destruct confirmed.
  - destruct (fails w (List.length (requests w))) eqn:F.
    + rewrite (delete_rejected key w st F). repeat split. now left.
    + rewrite (delete_accepted key w st F). repeat split. now right.
  - rewrite delete_declined. repeat split. now left.
Qed.

(** X17.  Loading ends on every path of the pipeline, and within the life
    of one page nothing turns it on again: after a run of [fetchData],
    whether it loaded, failed or found no user, the loading flag is off; a
    deletion and an edit of the form ask for no reload and leave the flag as
    it is; a creation leaves the flag as it is unless it asks for the page
    to be loaded anew, which only a creation that went through does. *)
Theorem loading_ends_and_stays_off_until_reload user confirmed key e w st :
  isLoading (stateAfter (fetchData user (w, st))) = false
  /\ (reloads (worldAfter (handleCreateAssignment user (w, st))) = reloads w ->
      isLoading (stateAfter (handleCreateAssignment user (w, st)))
      = isLoading st)
  /\ (reloads (worldAfter (handleCreateAssignment user (w, st))) <> reloads w ->
      exists k v,
        st_assignments
          (store (worldAfter (handleCreateAssignment user (w, st))))
        = st_assignments (store w) ++ [(k, v)])
  /\ reloads (worldAfter (handleDeleteAssignment confirmed key (w, st)))
     = reloads w
  /\ isLoading (stateAfter (handleDeleteAssignment confirmed key (w, st)))
     = isLoading st
  /\ reloads (worldAfter (applyEdit e (w, st))) = reloads w
  /\ isLoading (stateAfter (applyEdit e (w, st))) = isLoading st.
Proof.
  split; [|split; [|split; [|split; [|split; [|split]]]]].
  - destruct (present user) as [u|] eqn:P.
    + now destruct (fetchData_run user u w st P).
    + unfold fetchData. now rewrite P.
  - destruct (invalidForm_dec (newAssignment st)) as [I|I].
    + now rewrite (create_invalid user w st I).
    + destruct user as [u|]; [|now rewrite (create_no_user w st I)].
      destruct (fails w (List.length (requests w))) eqn:F.
      * now rewrite (create_rejected u w st I F).
      * now rewrite (create_accepted u w st I F).
  - destruct (invalidForm_dec (newAssignment st)) as [I|I].
    + rewrite (create_invalid user w st I). intros N. now contradiction N.
    + destruct user as [u|].
      * destruct (fails w (List.length (requests w))) eqn:F.
        -- rewrite (create_rejected u w st I F). intros N. now contradiction N.
        -- rewrite (create_accepted u w st I F). intros _.
           eexists _, _. reflexivity.
      * rewrite (create_no_user w st I). intros N. now contradiction N.
  - destruct confirmed; [|reflexivity].
    destruct (fails w (List.length (requests w))) eqn:F.
    + now rewrite (delete_rejected key w st F).
    + now rewrite (delete_accepted key w st F).
  - destruct confirmed; [|reflexivity].
    destruct (fails w (List.length (requests w))) eqn:F.
    + now rewrite (delete_rejected key w st F).
    + now rewrite (delete_accepted key w st F).
  - now destruct e as [[v|v|v]|v|v].
  - now destruct e as [[v|v|v]|v|v].
Qed.

Lemma loading_ends_and_stays_off_until_reload_witness :
  reloads (worldAfter (handleCreateAssignment
                         (Some Scenario.U1)
                         (Scenario.failing 0, Scenario.filled)))
  = reloads (Scenario.failing 0)
  /\ isLoading (stateAfter (handleCreateAssignment
                              (Some Scenario.U1)
                              (Scenario.failing 0, Scenario.filled)))
     = false
  /\ reloads (worldAfter (handleCreateAssignment
                            (Some Scenario.U1)
                            (Scenario.calm, Scenario.filled)))
     <> reloads Scenario.calm
  /\ exists k v,
       st_assignments
         (store (worldAfter (handleCreateAssignment
                               (Some Scenario.U1)
                               (Scenario.calm, Scenario.filled))))
       = st_assignments (store Scenario.calm) ++ [(k, v)].
Proof.
  assert (N : reloads (worldAfter (handleCreateAssignment
                                     (Some Scenario.U1)
                                     (Scenario.calm, Scenario.filled)))
              <> reloads Scenario.calm) by discriminate.
  split; [reflexivity|]. split; [|split; [exact N|]].
  - exact (proj1 (proj2 (loading_ends_and_stays_off_until_reload
                           (Some Scenario.U1) true "a1" (EditCourse "c1")
                           (Scenario.failing 0) Scenario.filled))
                 eq_refl).
  - exact (proj1 (proj2 (proj2 (loading_ends_and_stays_off_until_reload
                                  (Some Scenario.U1) true "a1"
                                  (EditCourse "c1")
                                  Scenario.calm Scenario.filled)))
                 N).
Defined.

(** ** Who sees what *)

(** X18.  A teacher sees nothing that an unrestricted user would not see:
    over the same store, every assignment of a completed run for a teacher
    is also in the completed run of a user of any other role. *)
Theorem teacher_sees_part_of_the_whole teacher other w w' st st' :
  present (Some teacher) = Some teacher ->
  present (Some other) = Some other ->
  user_role other <> "teacher" ->
  store w' = store w ->
  accepted teacher w ->
  accepted other w' ->
  forall a,
    In a (assignments (stateAfter (fetchData (Some teacher) (w, st)))) ->
    In a (assignments (stateAfter (fetchData (Some other) (w', st')))).
Proof.
  intros Pt Po R S At Ao a.
  rewrite (fetchData_accepted _ teacher w st Pt At).
  rewrite (fetchData_accepted _ other w' st' Po Ao).
  unfold stateAfter, loadedState; cbn [fst snd assignments].
  rewrite S. rewrite !in_pipeline.
  intros (c & Hc & H). exists c. split; [|exact H].
  apply in_resolvedScope in Hc. apply in_resolvedScope.
  split; [tauto | intros T; contradiction].
Qed.

Lemma teacher_sees_part_of_the_whole_witness :
  user_role Scenario.admin <> "teacher"
  /\ accepted Scenario.U1 Scenario.calm
  /\ accepted Scenario.admin Scenario.calm
  /\ In Scenario.E3
        (assignments (stateAfter (fetchData (Some Scenario.admin)
                                            (Scenario.calm, initialState)))).
Proof.
  assert (R : user_role Scenario.admin <> "teacher") by discriminate.
  split; [exact R|]. split; [exact (calm_accepted Scenario.U1)|].
  split; [exact (calm_accepted Scenario.admin)|].
  apply (teacher_sees_part_of_the_whole
           Scenario.U1 Scenario.admin Scenario.calm Scenario.calm
           initialState initialState eq_refl eq_refl R eq_refl
           (calm_accepted Scenario.U1) (calm_accepted Scenario.admin)).
  right. left. reflexivity.
Defined.

(** X19.  Teachers do not share assignments: when the keys of the stored
    courses are unique, no assignment is in the completed runs of two
    teachers with different ids. *)
Theorem teachers_see_disjoint_assignments t1 t2 w w' st st' a :
  present (Some t1) = Some t1 ->
  present (Some t2) = Some t2 ->
  user_role t1 = "teacher" ->
  user_role t2 = "teacher" ->
  user_id t1 <> user_id t2 ->
  store w' = store w ->
  NoDup (map fst (st_courses (store w))) ->
  accepted t1 w ->
  accepted t2 w' ->
  In a (assignments (stateAfter (fetchData (Some t1) (w, st)))) ->
  ~ In a (assignments (stateAfter (fetchData (Some t2) (w', st')))).
Proof.
  intros P1 P2 R1 R2 N S Nc A1 A2.
  rewrite (fetchData_accepted _ t1 w st P1 A1).
  rewrite (fetchData_accepted _ t2 w' st' P2 A2).
  unfold stateAfter, loadedState; cbn [fst snd assignments].
  rewrite S. rewrite !in_pipeline.
  intros (c1 & Hc1 & _ & K1 & _) (c2 & Hc2 & _ & K2 & _).
  apply in_resolvedScope in Hc1. destruct Hc1 as [H1 I1].
  apply in_resolvedScope in Hc2. destruct Hc2 as [H2 I2].
  rewrite <- K1 in H1. rewrite <- K2 in H2.
  pose proof (keys_functional _ _ _ _ Nc H1 H2) as E.
  apply N. rewrite <- (I1 R1), <- (I2 R2). now rewrite E.
Qed.

Lemma teachers_see_disjoint_assignments_witness :
  user_id Scenario.U1 <> user_id Scenario.U2
  /\ NoDup (map fst (st_courses (store Scenario.calm)))
  /\ ~ In Scenario.E1
         (assignments (stateAfter (fetchData (Some Scenario.U2)
                                             (Scenario.calm, initialState)))).
Proof.
  assert (N : user_id Scenario.U1 <> user_id Scenario.U2) by discriminate.
  assert (Nc : NoDup (map fst (st_courses (store Scenario.calm))))
    by (repeat constructor; simpl; intuition discriminate).
  split; [exact N|]. split; [exact Nc|].
  apply (teachers_see_disjoint_assignments
           Scenario.U1 Scenario.U2 Scenario.calm Scenario.calm
           initialState initialState Scenario.E1
           eq_refl eq_refl eq_refl eq_refl N eq_refl Nc
           (calm_accepted Scenario.U1) (calm_accepted Scenario.U2)).
  left. reflexivity.
Defined.

(** X20.  With no course in scope the run ends after its first round trip:
    when the answered course query brings no course, no assignment or
    submission query is sent, nothing is notified and the shown sequence is
    empty, whatever the store holds as assignments. *)
Theorem no_course_no_assignment user u w st :
  present user = Some u ->
  fails w (List.length (requests w)) = false ->
  let run := fetchData user (w, st) in
  courses (stateAfter run) = [] ->
  assignments (stateAfter run) = []
  /\ requests (worldAfter run) = requests w ++ [GetCourses (courseQuery u)]
  /\ toasts (worldAfter run) = toasts w.
Proof.
  intros P F run C. subst run.
  unfold stateAfter in C. rewrite (fetchData_courses user u w st P F) in C.
  assert (A : accepted u w).
  { unfold accepted. rewrite pipelineRequests_length, C. simpl.
    intros [|i] Hi; [now rewrite Nat.add_0_r | lia]. }
  rewrite (fetchData_accepted user u w st P A).
  unfold stateAfter, worldAfter, loadedState, pipeline, pipelineRequests;
    cbn [fst snd assignments].
  rewrite C. repeat split.
Qed.

Lemma no_course_no_assignment_witness :
  present (Some (mkUser "u3" "teacher")) = Some (mkUser "u3" "teacher")
  /\ fails Scenario.calm (List.length (requests Scenario.calm)) = false
  /\ courses (stateAfter (fetchData (Some (mkUser "u3" "teacher"))
                                    (Scenario.calm, initialState))) = []
  /\ requests (worldAfter (fetchData (Some (mkUser "u3" "teacher"))
                                     (Scenario.calm, initialState)))
     = [GetCourses (Some "u3")].
Proof.
  split; [reflexivity|]. split; [reflexivity|]. split; [reflexivity|].
  exact (proj1 (proj2 (no_course_no_assignment
                         (Some (mkUser "u3" "teacher")) (mkUser "u3" "teacher")
                         Scenario.calm initialState eq_refl eq_refl eq_refl))).
Defined.

(** X21.  Deleting what the store no longer has still succeeds: when no
    child is stored under the given key, a confirmed and accepted deletion
    leaves the store as it was, notifies success and takes the assignments
    of that id out of the shown sequence. *)
Theorem delete_missing_key key w st :
  ~ In key (map fst (st_assignments (store w))) ->
  fails w (List.length (requests w)) = false ->
  let run := handleDeleteAssignment true key (w, st) in
  store (worldAfter run) = store w
  /\ toasts (worldAfter run)
     = toasts w ++ [toast_success "Assignment deleted successfully"]
  /\ forall a, In a (assignments (stateAfter run)) <->
               In a (assignments st) /\ id a <> key.
Proof.
  intros M F run. subst run. rewrite (delete_accepted key w st F).
  unfold worldAfter, stateAfter, deletedWorld; cbn.
  split; [|split; [reflexivity|]].
  - rewrite forallb_filter_id; [now destruct (store w)|].
    apply forallb_forall. intros [k v] Hin. cbn [fst].
    apply negb_true_iff, String.eqb_neq. intros ->.
    apply M. apply in_map_iff. now exists (key, v).
  - intros a. rewrite filter_In, negb_true_iff, String.eqb_neq. tauto.
Qed.

Lemma delete_missing_key_witness :
  ~ In "a9" (map fst (st_assignments (store Scenario.calm)))
  /\ store (worldAfter (handleDeleteAssignment true "a9"
                          (Scenario.calm, Scenario.filled)))
     = Scenario.school.
Proof.
  assert (M : ~ In "a9" (map fst (st_assignments (store Scenario.calm))))
    by (simpl; intuition discriminate).
  split; [exact M|].
  exact (proj1 (delete_missing_key "a9" Scenario.calm Scenario.filled
                                   M eq_refl)).
Defined.
